(** * MoneyMover: reconciliation and classification engine

    A shallow embedding of the decision logic of [money_mover]:
    - [ing_parser.py]: the statement selector ([IngParser._find_statement],
      [IngParser._find_closest_end_date_file]);
    - [prompts.py]: the interactive prompts and the [CategorySelector];
    - [moneymover.py]: the choice of the wallet, the loading of the
      presets, the listing of the ledger, the dedup pass, the preset pass,
      category-id resolution, payload construction and the two transfer
      passes;
    - [moneylover_api.py]: [MoneyLoverClient.add_transaction] and
      [MoneyLoverClient.get_transactions], as far as the requests they
      assemble, and the cached access token.

    Conventions of the embedding.
    - A [str] is the list of its characters, for text within Latin-1.
    - A [pd.Series] (a row of a frame) is a finite map from column names to
      cells; a [pd.DataFrame] is the list of its rows in index order.
    - Python exceptions are values of [exn]; a computation that can raise
      returns a [result].
    - Console input is a list of lines still to be typed; [input()] on the
      empty list is Python's [EOFError].  Every prompt loop reads at least
      one line per round: the simple loops are structural recursions on
      that list, and the loop of [CategorySelector.run] is bounded by its
      length.
    - Console output and the requests sent to the ledger service are
      appended to logs that survive an exception. *)

From Stdlib Require Import ZArith Ascii String.
From stdpp Require Import base option list gmap strings fin_maps pretty.

Local Open Scope string_scope.
Local Open Scope Z_scope.

(** ** Python values shared by the modules *)

(** Exceptions, by class, with the message where the code builds one;
    [RequestException] stands for the exceptions of [requests]. *)
Inductive exn : Type :=
| FileNotFoundError (msg : string)
| ValueError (msg : string)
| KeyError (key : string)
| IndexError
| AttributeError
| UnboundLocalError
| EOFError
| MoneyLoverException (msg : string)
| ReturnedTypeError (msg : string)
| RequestException (msg : string).

Inductive result (A : Type) : Type :=
| Ok (a : A)
| Raise (e : exn).
Arguments Ok {A} a.
Arguments Raise {A} e.

Definition result_bind {A B} (r : result A) (k : A → result B) : result B :=
  match r with
  | Ok a => k a
  | Raise e => Raise e
  end.

Notation "'let?' x := r 'in' k" := (result_bind r (λ x, k))
  (at level 10, x pattern, r at level 100, k at level 200).

(** A [str] is the list of its characters, for text within Latin-1: the
    8-bit character [c] of the model is the code point [nat_of_ascii c].

    The decimal digits [0] to [9]: what [\d] matches and what [int]
    reads. *)
Definition is_digit (c : ascii) : bool :=
  (48 <=? nat_of_ascii c)%nat && (nat_of_ascii c <=? 57)%nat.

Definition digit_value (c : ascii) : Z := Z.of_nat (nat_of_ascii c) - 48.

Fixpoint all_digits (s : string) : bool :=
  match s with
  | EmptyString => true
  | String c s' => is_digit c && all_digits s'
  end.

(** The superscripts two, three and one (code points 178, 179, 185):
    digits for [str.isdigit], not for [int]. *)
Definition is_superscript_digit (c : ascii) : bool :=
  (nat_of_ascii c =? 178)%nat || (nat_of_ascii c =? 179)%nat
  || (nat_of_ascii c =? 185)%nat.

(** The fractions one quarter, one half and three quarters (code points
    188 to 190): numeric for [str.isnumeric], not digits. *)
Definition is_vulgar_fraction (c : ascii) : bool :=
  (188 <=? nat_of_ascii c)%nat && (nat_of_ascii c <=? 190)%nat.

Fixpoint all_chars (p : ascii → bool) (s : string) : bool :=
  match s with
  | EmptyString => true
  | String c s' => p c && all_chars p s'
  end.

(** [str.isdigit]: at least one character, and every character a decimal
    digit or a superscript digit. *)
Definition isdigit (s : string) : bool :=
  match s with
  | EmptyString => false
  | _ => all_chars (λ c, is_digit c || is_superscript_digit c) s
  end.

(** [str.isnumeric]: as [str.isdigit], the fractions included. *)
Definition isnumeric (s : string) : bool :=
  match s with
  | EmptyString => false
  | _ => all_chars (λ c, is_digit c || is_superscript_digit c
                         || is_vulgar_fraction c) s
  end.

Fixpoint int_of_digits (acc : Z) (s : string) : Z :=
  match s with
  | EmptyString => acc
  | String c s' => int_of_digits (10 * acc + digit_value c) s'
  end.

(** [sys.get_int_max_str_digits()], which the program leaves at its
    default. *)
Definition int_max_str_digits : Z := 4300.

(** The number of decimal digits with which the string starts. *)
Fixpoint leading_digits (s : string) : nat :=
  match s with
  | EmptyString => O
  | String c s' => if is_digit c then S (leading_digits s') else O
  end.

(** [int(s)] where [prompts.py] calls it: on a string for which
    [str.isdigit] or [str.isnumeric] holds.  Such a string has no sign,
    space or underscore.  [int] counts the decimal digits it starts with
    and raises [ValueError] if they are more than the limit; otherwise it
    reads the string if all its characters are decimal digits, and raises
    [ValueError] if not. *)
Definition int (s : string) : result Z :=
  if int_max_str_digits <? Z.of_nat (leading_digits s) then
    Raise (ValueError
             ("Exceeds the limit (4300 digits) for integer string conversion: "
              +:+ "value has " +:+ pretty (leading_digits s)
              +:+ " digits; use sys.set_int_max_str_digits() "
              +:+ "to increase the limit"))
  else if negb (all_digits s) || bool_decide (s = EmptyString) then
    Raise (ValueError ("invalid literal for int() with base 10: '"
                       +:+ s +:+ "'"))
  else Ok (int_of_digits 0 s).

(** ** [datetime]: the part of Python's calendar the selector uses *)

Module Datetime.

(** A [datetime] at midnight, as [strptime] with a date-only format
    builds it. *)
Record datetime : Type := mk_datetime { year : Z; month : Z; day : Z }.

Definition is_leap (y : Z) : bool :=
  (y mod 4 =? 0) && (negb (y mod 100 =? 0) || (y mod 400 =? 0)).

Definition days_in_month (y m : Z) : Z :=
  if m =? 2 then (if is_leap y then 29 else 28)
  else if (m =? 4) || (m =? 6) || (m =? 9) || (m =? 11) then 30
  else 31.

Definition days_before_year (y : Z) : Z :=
  let y' := y - 1 in
  y' * 365 + y' / 4 - y' / 100 + y' / 400.

Fixpoint days_before_month_aux (y : Z) (n : nat) : Z :=
  match n with
  | O => 0
  | S n' => days_before_month_aux y n' + days_in_month y (Z.of_nat n)
  end.

(** Number of days of year [y] that come before the first of month [m]. *)
Definition days_before_month (y m : Z) : Z :=
  days_before_month_aux y (Z.to_nat (m - 1)).

(** [datetime.toordinal]: 1 is 0001-01-01. *)
Definition toordinal (d : datetime) : Z :=
  days_before_year (year d) + days_before_month (year d) (month d) + day d.

Definition valid_date (y m d : Z) : bool :=
  (1 <=? y) && (y <=? 9999) && (1 <=? m) && (m <=? 12)
  && (1 <=? d) && (d <=? days_in_month y m).

(** The shape [dd-mm-yyyy]: [0] stands for a decimal digit, any other
    character for itself. *)
Fixpoint has_shape (shape s : string) : bool :=
  match shape, s with
  | EmptyString, EmptyString => true
  | String p shape', String c s' =>
      (if Ascii.eqb p "0" then is_digit c else Ascii.eqb p c)
      && has_shape shape' s'
  | _, _ => false
  end.

(** [datetime.strptime(s, fmt)] for a format [%d?%m?%Y] whose shape is
    [shape] ([00-00-0000] for ["%d-%m-%Y"], [00.00.0000] for
    ["%d.%m.%Y"]), on strings of two, two and four digits such as the
    statement pattern captures.  A day, month or year that is not a
    calendar date raises [ValueError]; its message is abbreviated here. *)
Definition strptime_shape (shape s : string) : result datetime :=
  if has_shape shape s then
    let d := int_of_digits 0 (substring 0 2 s) in
    let m := int_of_digits 0 (substring 3 2 s) in
    let y := int_of_digits 0 (substring 6 4 s) in
    if valid_date y m d then Ok (mk_datetime y m d)
    else Raise (ValueError "time data does not match format")
  else Raise (ValueError "time data does not match format").

(** [datetime.strptime(s, "%d-%m-%Y")] *)
Definition strptime (s : string) : result datetime :=
  strptime_shape "00-00-0000" s.

(** [datetime.strptime(s, "%d.%m.%Y")] *)
Definition strptime_dotted (s : string) : result datetime :=
  strptime_shape "00.00.0000" s.

Definition pad (width : nat) (n : Z) : string :=
  let digits := pretty n in
  String.concat "" (replicate (width - String.length digits) "0") +:+ digits.

(** [d.strftime("%Y-%m-%d")] *)
Definition strftime (d : datetime) : string :=
  pad 4 (year d) +:+ "-" +:+ pad 2 (month d) +:+ "-" +:+ pad 2 (day d).

(** [(a - b).days] for [b] at midnight and [a] at any time of day [a]'s
    date has: a [timedelta] keeps its seconds non-negative, so [.days] is
    the difference of the two ordinals. *)
Definition days_between (a_ordinal : Z) (b : datetime) : Z :=
  a_ordinal - toordinal b.

End Datetime.

(** ** [ing_parser.py] *)

Module IngParser.
Import Datetime.

(** An [re.Match] of the statement pattern: the string that was matched
    and the three groups. *)
Record Match : Type := mk_match {
  match_string : string;
  group_iban : string;
  group_start : string;
  group_end : string
}.

Definition newline : ascii := ascii_of_nat 10.

Fixpoint no_newline (s : string) : bool :=
  match s with
  | EmptyString => true
  | String c s' => negb (Ascii.eqb c newline) && no_newline s'
  end.

(** The tail of the pattern after the first group:
    [_(\d{2}-\d{2}-\d{4})_(\d{2}-\d{2}-\d{4})]. *)
Definition tail_shape : string := "_00-00-0000_00-00-0000".

(** Backtracking of the greedy [(.+)]: the first group is tried from the
    longest prefix down to one character; it may not span a newline. *)
Fixpoint backtrack (name : string) (i : nat) : option Match :=
  match i with
  | O => None
  | S i' =>
      if no_newline (substring 0 i name)
         && has_shape tail_shape (substring i 22 name)
      then Some (mk_match name (substring 0 i name)
                   (substring (i + 1) 10 name) (substring (i + 12) 10 name))
      else backtrack name i'
  end.

(** [re.match(file_pattern, name)] for
    [file_pattern = r"(.+)_(\d{2}-\d{2}-\d{4})_(\d{2}-\d{2}-\d{4})"]:
    anchored at the start, free at the end. *)
Definition re_match_file_pattern (name : string) : option Match :=
  backtrack name (String.length name - 22).

(** State of the loop of [_find_closest_end_date_file]:
    [closest_days_diff] is [None] while it is [float("inf")]. *)
Record selector_state : Type := mk_selector_state {
  recent_file : option string;
  closest_days_diff : option Z;
  date_range : option (datetime * datetime)
}.

Definition initial_state : selector_state := mk_selector_state None None None.

(** [days_diff < closest_days_diff] *)
Definition improves (days_diff : Z) (closest : option Z) : bool :=
  match closest with
  | None => true
  | Some c => days_diff <? c
  end.

Fixpoint closest_loop (today : Z) (file_match : list (option Match))
    (st : selector_state) : result selector_state :=
  match file_match with
  | [] => Ok st
  | None :: rest => closest_loop today rest st
  | Some m :: rest =>
      let? end_date := strptime (group_end m) in
      let? start_date := strptime (group_start m) in
      let days_diff := days_between today end_date in
      if improves days_diff (closest_days_diff st)
      then closest_loop today rest
             (mk_selector_state (Some (match_string m)) (Some days_diff)
                (Some (start_date, end_date)))
      else closest_loop today rest st
  end.

(** [IngParser._find_closest_end_date_file]; [today] is the ordinal of
    [datetime.today()].  Returns the file name and the value left in
    [self.date_range]. *)
Definition _find_closest_end_date_file (today : Z)
    (file_match : list (option Match))
    : result (string * option (datetime * datetime)) :=
  let? st := closest_loop today file_match initial_state in
  match recent_file st with
  | Some f => Ok (f, date_range st)
  | None => Raise (FileNotFoundError "ING bank statement is not found")
  end.

(** [IngParser._find_statement]; [csv_files] are the names that
    [root_path.glob("*.csv")] lists, in listing order. *)
Definition _find_statement (today : Z) (csv_files : list string)
    : result (string * option (datetime * datetime)) :=
  let file_matches := re_match_file_pattern <$> csv_files in
  _find_closest_end_date_file today file_matches.

End IngParser.


(** ** Cells of a frame *)

(** What a cell of a frame holds: a string, an integer, a [float64] (given
    by the decimal it stands for, counted in hundredths: bank and ledger
    amounts have two decimals), a [pd.Timestamp] at midnight, a boolean, or
    [NaN]. *)
Inductive cell : Type :=
| CStr (s : string)
| CInt (n : Z)
| CFloat (hundredths : Z)
| CDate (d : Datetime.datetime)
| CBool (b : bool)
| CNaN.

Global Instance datetime_eq_dec : EqDecision Datetime.datetime.
Proof. solve_decision. Defined.

Global Instance cell_eq_dec : EqDecision cell.
Proof. solve_decision. Defined.

(** [repr] of a float with at most two decimals (below [1e16], where Python
    does not yet switch to the exponent form). *)
Definition float_repr (h : Z) : string :=
  let a := Z.abs h in
  (if h <? 0 then "-" else "") +:+ pretty (a / 100) +:+ "." +:+
  (if a mod 10 =? 0 then pretty (a mod 100 / 10) else Datetime.pad 2 (a mod 100)).

(** Python's [str] on a cell. *)
Definition py_str (c : cell) : string :=
  match c with
  | CStr s => s
  | CInt n => pretty n
  | CFloat h => float_repr h
  | CDate d => Datetime.strftime d +:+ " 00:00:00"
  | CBool true => "True"
  | CBool false => "False"
  | CNaN => "nan"
  end.

(** [c == s] for a string [s], as pandas compares a column with a string:
    only a string cell can be equal to it. *)
Definition cell_eq_str (c : cell) (s : string) : bool :=
  match c with
  | CStr t => bool_decide (t = s)
  | _ => false
  end.

(** [pd.isna] *)
Definition isna (c : cell) : bool :=
  match c with
  | CNaN => true
  | _ => false
  end.

(** A row: column name to cell. *)
Abbreviation Series := (gmap string cell).

(** A frame: its rows with their index labels, in order. *)
Abbreviation DataFrame := (list (nat * gmap string cell)).

(** [str.lower] on a character: the letters A to Z, and the capital
    letters of Latin-1 (code points 192 to 222 without the multiplication
    sign, 215), have their small letter 32 places further. *)
Definition lower_char (c : ascii) : ascii :=
  let n := nat_of_ascii c in
  if ((65 <=? n)%nat && (n <=? 90)%nat)
     || ((192 <=? n)%nat && (n <=? 222)%nat && negb (n =? 215)%nat)
  then ascii_of_nat (n + 32) else c.

(** [str.lower] *)
Fixpoint lower (s : string) : string :=
  match s with
  | EmptyString => EmptyString
  | String c s' => String (lower_char c) (lower s')
  end.

(** [drop_duplicates] by a key column: the first row of every key stays. *)
Fixpoint drop_duplicates_seen {A} (key : A → string) (seen : list string)
    (rows : list A) : list A :=
  match rows with
  | [] => []
  | r :: rows' =>
      if bool_decide (key r ∈ seen) then drop_duplicates_seen key seen rows'
      else r :: drop_duplicates_seen key (key r :: seen) rows'
  end.

Definition drop_duplicates {A} (key : A → string) (rows : list A) : list A :=
  drop_duplicates_seen key [] rows.

(** A row of the categories table ([MoneyLoverClient.categories]), by its
    columns. *)
Module Category.
Record t : Type := mk {
  wallet_id : string;
  wallet_name : string;
  type : string;
  name : string;
  _id : cell;
  parent : cell
}.
End Category.

(** ** [prompts.py]

    A prompt takes the lines still to be typed and returns its result with
    the lines it left.  What the prompts print (menus, [print_line],
    [_invalid_input]) is terminal rendering and is not recorded; it is
    taken to succeed, as it does on rows that come from the parser with
    their nine columns and a name that is a string. *)

Module UserPrompts.

Definition TRANSACTION_TYPES : gmap string string :=
  {[ "d" := "debt/loan"; "i" := "income"; "e" := "expense" ]}.

(** [UserPrompts.choose_transaction_type] *)
Fixpoint choose_transaction_type (stdin : list string)
    : result (option string) * list string :=
  match stdin with
  | [] => (Raise EOFError, [])
  | user_input :: rest =>
      if bool_decide (user_input = "s") then (Ok None, rest)
      else match TRANSACTION_TYPES !! user_input with
           | Some transaction_type => (Ok (Some transaction_type), rest)
           | None => choose_transaction_type rest
           end
  end.

(** The [(y/n)] loop shared by [prompt_adding] and [promt_manual_entry]. *)
Fixpoint yes_no (stdin : list string) : result bool * list string :=
  match stdin with
  | [] => (Raise EOFError, [])
  | ans :: rest =>
      if bool_decide (ans = "y") then (Ok true, rest)
      else if bool_decide (ans = "n") then (Ok false, rest)
      else yes_no rest
  end.

(** [UserPrompts.prompt_adding] *)
Definition prompt_adding (transactions : DataFrame) (stdin : list string)
    : result bool * list string :=
  match transactions with
  | [] => (Ok false, stdin)
  | _ => yes_no stdin
  end.

(** [UserPrompts.promt_manual_entry]: on an empty frame the [while] is
    not entered and the method returns [None], which its caller tests as
    false. *)
Definition promt_manual_entry (bank_transactions : DataFrame)
    (stdin : list string) : result bool * list string :=
  match bank_transactions with
  | [] => (Ok false, stdin)
  | _ => yes_no stdin
  end.

End UserPrompts.

Module CategorySelector.

(** The object: [self.categories] and [self.selected_category] (only read
    after it was assigned). *)
Record t : Type := mk {
  categories : list Category.t;
  selected_category : option string
}.

Definition set_selected (self : t) (c : option string) : t :=
  mk (categories self) c.

(** [CategorySelector.__init__] *)
Definition __init__ (categories : list Category.t) : t :=
  mk (drop_duplicates Category.name categories) None.

(** [CategorySelector._count_subcategories]: the left merge of the
    parents with [value_counts] of the [parent] column ([NaN] is not
    counted), on [_id = parent].  The count is only displayed. *)
Definition _count_subcategories (self : t) (parents_df : list Category.t)
    : list (Category.t * nat) :=
  (λ p, (p, length (filter
               (λ c, isna (Category.parent c) = false
                     ∧ Category.parent c = Category._id p)
               (categories self)))) <$> parents_df.

(** [CategorySelector.parent_categories] *)
Definition parent_categories (self : t) : list (Category.t * nat) :=
  _count_subcategories self
    (filter (λ c, isna (Category.parent c) = true) (categories self)).

(** [CategorySelector._get_children] *)
Definition _get_children (self : t) (parent_category : string)
    : result (list string) :=
  match filter (λ c, Category.name c = parent_category) (categories self) with
  | [] => Raise IndexError
  | p :: _ =>
      let parent_id := Category._id p in
      let children :=
        filter (λ c, cell_eq_str (Category.parent c) (py_str parent_id) = true)
          (categories self) in
      Ok (drop_duplicates id (Category.name <$> children))
  end.

(** [CategorySelector._select_subcategory]; returns the object as the
    loop leaves it.  [int] is called on every line that [str.isdigit]
    accepts, outside any [try]. *)
Fixpoint _select_subcategory (self : t) (subcategories : list string)
    (stdin : list string) : result (option string) * t * list string :=
  match stdin with
  | [] => (Raise EOFError, self, [])
  | user_input :: rest =>
      if isdigit user_input then
        match int user_input with
        | Raise e => (Raise e, self, rest)
        | Ok selected_index =>
            match subcategories !! Z.to_nat selected_index with
            | Some sub =>
                let self := set_selected self (Some sub) in
                (Ok (selected_category self), self, rest)
            | None => _select_subcategory self subcategories rest
            end
        end
      else if bool_decide (lower user_input = "b") then (Ok None, self, rest)
      else if bool_decide (user_input = "") then
        (Ok (selected_category self), self, rest)
      else _select_subcategory self subcategories rest
  end.

(** Truth value of a [str | None]. *)
Definition truthy (o : option string) : bool :=
  match o with
  | Some (String _ _) => true
  | _ => false
  end.

(** [CategorySelector._category_selected] *)
Definition _category_selected (self : t) (stdin : list string)
    : result bool * t * list string :=
  match stdin with
  | [] => (Raise EOFError, self, [])
  | user_input :: rest =>
      if isdigit user_input then
        match int user_input with
        | Raise e => (Raise e, self, rest)
        | Ok selected_index =>
            match parent_categories self !! Z.to_nat selected_index with
            | Some (p, _) =>
                let self := set_selected self (Some (Category.name p)) in
                match _get_children self (Category.name p) with
                | Raise e => (Raise e, self, rest)
                | Ok [] => (Ok true, self, rest)
                | Ok subcategories =>
                    match _select_subcategory self subcategories rest with
                    | (Ok r, self, rest) => (Ok (truthy r), self, rest)
                    | (Raise e, self, rest) => (Raise e, self, rest)
                    end
                end
            | None => (Ok false, self, rest)
            end
        end
      else if bool_decide (lower user_input = "s") then
        (Ok true, set_selected self None, rest)
      else (Ok false, self, rest)
  end.

(** The [while True] of [run]; every round reads at least one line, so
    [fuel] above the number of lines left is never used up. *)
Fixpoint run_loop (fuel : nat) (self : t) (stdin : list string)
    : result (option string) * list string :=
  match fuel with
  | O => (Raise EOFError, stdin)
  | S fuel' =>
      match _category_selected self stdin with
      | (Ok true, self, rest) => (Ok (selected_category self), rest)
      | (Ok false, self, rest) => run_loop fuel' self rest
      | (Raise e, _, rest) => (Raise e, rest)
      end
  end.

(** [CategorySelector.run] *)
Definition run (self : t) (stdin : list string)
    : result (option string) * list string :=
  run_loop (S (length stdin)) self stdin.

End CategorySelector.

Module UserPromptsCategory.
(** [UserPrompts.choose_category] *)
Definition choose_category (categories : list Category.t)
    (stdin : list string) : result (option string) * list string :=
  CategorySelector.run (CategorySelector.__init__ categories) stdin.
End UserPromptsCategory.

(** ** Effects of [moneymover.py] *)

Module MoneyLoverClient.

(** The body of a [/transaction/add] request (its constant ["with": []]
    left out). *)
Record transaction_data : Type := mk_transaction_data {
  account : string;
  category : cell;
  amount : cell;
  note : cell;
  displayDate : string
}.

(** The body of a [/transaction/list] request. *)
Record list_request : Type := mk_list_request {
  startDate : string;
  endDate : string;
  walletId : string
}.

End MoneyLoverClient.

(** The console and the ledger service as the engine sees them: the lines
    still to be typed, the lines [moneymover.py] printed, the
    [/transaction/add] requests sent so far, and the [/transaction/list]
    requests sent so far. *)
Record World : Type := mk_world {
  stdin : list string;
  stdout : list string;
  requests : list MoneyLoverClient.transaction_data;
  queries : list MoneyLoverClient.list_request
}.

(** A computation: it may raise, and what it did to the world stays. *)
Definition M (A : Type) : Type := World → result A * World.

Definition ret {A} (a : A) : M A := λ w, (Ok a, w).

Definition raise {A} (e : exn) : M A := λ w, (Raise e, w).

Definition bind {A B} (m : M A) (k : A → M B) : M B :=
  λ w, match m w with
       | (Ok a, w') => k a w'
       | (Raise e, w') => (Raise e, w')
       end.

Notation "'let!' x := m 'in' k" := (bind m (λ x, k))
  (at level 10, x pattern, m at level 100, k at level 200).
Notation "m ;; k" := (bind m (λ _, k))
  (at level 100, k at level 200, right associativity).

Definition lift {A} (r : result A) : M A := λ w, (r, w).

(** [try: body except KeyError as e: handler(e)] *)
Definition try_except_KeyError {A} (body : M A) (handler : string → M A)
    : M A :=
  λ w, match body w with
       | (Raise (KeyError key), w') => handler key w'
       | r => r
       end.

(** [print(...)] in [moneymover.py]: one entry per call. *)
Definition print (line : string) : M unit :=
  λ w, (Ok tt,
        mk_world (stdin w) (stdout w ++ [line]) (requests w) (queries w)).

(** Run a prompt of [prompts.py] on the console. *)
Definition prompt {A} (p : list string → result A * list string) : M A :=
  λ w, let '(r, rest) := p (stdin w) in
       (r, mk_world rest (stdout w) (requests w) (queries w)).

(** [input(...)] *)
Definition input : M string :=
  prompt (λ lines, match lines with
                   | [] => (Raise EOFError, [])
                   | line :: rest => (Ok line, rest)
                   end).

(** [series[column]] *)
Definition getitem (series : Series) (column : string) : result cell :=
  match series !! column with
  | Some c => Ok c
  | None => Raise (KeyError column)
  end.

(** [for x in xs: body(x)] *)
Fixpoint for_each {A} (body : A → M unit) (xs : list A) : M unit :=
  match xs with
  | [] => ret tt
  | x :: xs' => body x ;; for_each body xs'
  end.

Module MoneyLoverClientOps.
Import MoneyLoverClient.

(** [MoneyLoverClient._post_request] for [/transaction/add]: the request
    goes out, and [service] is what comes back for it: a transport error,
    an error code of the service, a reply of the wrong type, or data. *)
Definition _post_request (service : transaction_data → result unit)
    (body : transaction_data) : M unit :=
  λ w, (service body,
        mk_world (stdin w) (stdout w) (requests w ++ [body]) (queries w)).

(** [MoneyLoverClient.add_transaction] *)
Definition add_transaction (service : transaction_data → result unit)
    (wallet_id : string) (category_id amount note date : cell) : M unit :=
  let! date := lift match date with
                    | CStr s => Datetime.strptime_dotted s
                    | CDate d => Ok d
                    | _ => Raise AttributeError
                    end in
  _post_request service
    (mk_transaction_data wallet_id category_id amount note
       (Datetime.strftime date)).

(** [MoneyLoverClient.get_transactions] on two [datetime]s: the request
    goes out, and [ledger] is what comes back for it: an exception of
    [_post_request], [ReturnedTypeError], or the transactions. *)
Definition get_transactions {A} (ledger : list_request → result A)
    (wallet_id : string) (start_date end_date : Datetime.datetime) : M A :=
  let body := mk_list_request (Datetime.strftime start_date)
                (Datetime.strftime end_date) wallet_id in
  λ w, (ledger body,
        mk_world (stdin w) (stdout w) (requests w) (queries w ++ [body])).

End MoneyLoverClientOps.

(** ** [moneymover.py] *)

Module MoneyMover.
Import MoneyLoverClient MoneyLoverClientOps.

(** A preset of the presets file. *)
Record Label : Type := mk_label {
  label_note : string;
  label_category_name : string;
  label_type : string
}.

Record Preset : Type := mk_preset {
  conditions : list (string * string);
  label : Label
}.

(** A row of [self.ml_transactions], as [_format_transactions] builds it. *)
Record LedgerTransaction : Type := mk_ledger_transaction {
  ledger_note : cell;
  ledger_amount : cell;
  ledger_date : cell;
  ledger_category : cell
}.

(** What [kwargs] of [add_transaction] the engine builds. *)
Record Payload : Type := mk_payload {
  payload_wallet_id : string;
  payload_category_id : cell;
  payload_amount : cell;
  payload_date : cell;
  payload_note : cell
}.

(** The object: the attributes the engine reads.  [categories_file] is
    the table [pd.read_csv(self.ml_api.categories_file)] returns;
    [ml_transactions] is what [request_transactions] stored last;
    [service] answers [/transaction/add]; [date_range] is
    [self.bank_statement.date_range]; [ledger_service] answers
    [/transaction/list], with the transactions as [_format_transactions]
    renders them (or the exception of the request or of the rendering). *)
Record t : Type := mk {
  transaction_presets : list Preset;
  ml_transactions : list LedgerTransaction;
  active_wallet_id : string;
  wallet_categories : list Category.t;
  categories_file : list Category.t;
  service : transaction_data → result unit;
  date_range : Datetime.datetime * Datetime.datetime;
  ledger_service : list_request → result (list LedgerTransaction)
}.

(** [self.ml_transactions = ...] *)
Definition set_ml_transactions (self : t)
    (ml_transactions : list LedgerTransaction) : t :=
  mk (transaction_presets self) ml_transactions (active_wallet_id self)
    (wallet_categories self) (categories_file self) (service self)
    (date_range self) (ledger_service self).

(** [MoneyMover.request_transactions]; returns the object with the
    ledger transactions it stored. *)
Definition request_transactions (self : t)
    (date_range : Datetime.datetime * Datetime.datetime) : M t :=
  let '(start_date, end_date) := date_range in
  let! ml_transactions :=
    get_transactions (ledger_service self) (active_wallet_id self)
      start_date end_date in
  ret (set_ml_transactions self ml_transactions).

(** The number a numeric cell holds, in hundredths. *)
Definition hundredths (c : cell) : option Z :=
  match c with
  | CInt n => Some (100 * n)
  | CFloat h => Some h
  | _ => None
  end.

(** Equality of two values under [Series.isin]: numbers by value,
    anything else by identity of the value ([NaN] is in a list that
    holds [NaN]). *)
Definition cell_same (a b : cell) : bool :=
  match hundredths a, hundredths b with
  | Some x, Some y => x =? y
  | None, None => bool_decide (a = b)
  | _, _ => false
  end.

(** [series.isin(values)], at one cell. *)
Definition isin (c : cell) (values : list cell) : bool :=
  existsb (cell_same c) values.

(** [df[column]]: a [KeyError] when the column is missing. *)
Fixpoint column (df : DataFrame) (name : string) : result (list cell) :=
  match df with
  | [] => Ok []
  | (_, row) :: df' =>
      let? c := getitem row name in
      let? cs := column df' name in
      Ok (c :: cs)
  end.

(** [df[name] = values] *)
Definition set_column (df : DataFrame) (name : string) (values : list cell)
    : DataFrame :=
  zip_with (λ '(idx, row) v, (idx, <[name := v]> row)) df values.

(** [MoneyMover._check_if_already_added] *)
Definition _check_if_already_added (self : t) (bank_transactions : DataFrame)
    : result DataFrame :=
  match ml_transactions self with
  | [] =>
      Ok (set_column bank_transactions "is_in_ml"
            (replicate (length bank_transactions) (CBool false)))
  | _ =>
      let? amounts := column bank_transactions "amount" in
      let is_same_amount :=
        (λ c, isin c (ledger_amount <$> ml_transactions self)) <$> amounts in
      let? dates := column bank_transactions "date" in
      let is_same_date :=
        (λ c, isin c (ledger_date <$> ml_transactions self)) <$> dates in
      let is_in_ml := zip_with andb is_same_amount is_same_date in
      Ok (set_column bank_transactions "is_in_ml" (CBool <$> is_in_ml))
  end.

Section Presets.
(** [re_match pattern value] is whether
    [re.match(pattern, value, re.IGNORECASE)] finds a match: the pattern
    is tried at the start of [value], letter case ignored.  Presets hold
    patterns that compile. *)
Variable re_match : string → string → bool.

(** [str(bank_transaction.get(column, ""))] *)
Definition transaction_value (bank_transaction : Series) (column : string)
    : string :=
  match bank_transaction !! column with
  | Some c => py_str c
  | None => ""
  end.

Fixpoint conditions_met (bank_transaction : Series)
    (conditions : list (string * string)) : bool :=
  match conditions with
  | [] => true
  | (column, substring) :: rest =>
      if negb (re_match substring (transaction_value bank_transaction column))
      then false
      else conditions_met bank_transaction rest
  end.

(** [MoneyMover._is_preset_matched] *)
Definition _is_preset_matched (bank_transaction : Series) (preset : Preset)
    : bool :=
  conditions_met bank_transaction (conditions preset).

(** The inner [for preset in self.transaction_presets: ... break]:
    the preset at which the loop breaks. *)
Fixpoint matched_preset (bank_transaction : Series) (presets : list Preset)
    : option Preset :=
  match presets with
  | [] => None
  | preset :: rest =>
      if _is_preset_matched bank_transaction preset then Some preset
      else matched_preset bank_transaction rest
  end.

(** The three [transactions_df.at[idx, column] = preset["label"][column]] *)
Definition set_label (row : Series) (l : Label) : Series :=
  <["type" := CStr (label_type l)]>
    (<["category_name" := CStr (label_category_name l)]>
       (<["note" := CStr (label_note l)]> row)).

(** [MoneyMover._compare_to_presets].  [iterrows] hands out the rows as
    they are when the loop starts, with [has_preset] already [False];
    index labels are unique, so [.at[idx, ...]] writes the row that is
    being visited. *)
Definition _compare_to_presets (self : t) (transactions_df : DataFrame)
    : DataFrame :=
  let transactions_df :=
    (λ '(idx, row), (idx, <["has_preset" := CBool false]> row))
      <$> transactions_df in
  (λ '(idx, bank_transaction),
     match matched_preset bank_transaction (transaction_presets self) with
     | Some preset =>
         (idx, set_label (<["has_preset" := CBool true]> bank_transaction)
                 (label preset))
     | None => (idx, bank_transaction)
     end) <$> transactions_df.

(** [MoneyMover._get_category_id] *)
Definition _get_category_id (self : t) (category_name category_type : cell)
    : M cell :=
  let df := categories_file self in
  let category_id :=
    filter (λ c, Category.wallet_id c = active_wallet_id self
                 ∧ CStr (Category.name c) = category_name
                 ∧ CStr (Category.type c) = category_type) df in
  match category_id with
  | [] => raise (ValueError ("No matching category found for "
                               +:+ py_str category_name))
  | first :: others =>
      (match others with
       | [] => ret tt
       | _ => print (pretty (length category_id) +:+ " id matches for the "
                     +:+ " " +:+ "name " +:+ py_str category_name +:+ ".")
       end) ;;
      ret (Category._id first)
  end.

(** [MoneyMover._create_payload] *)
Definition _create_payload (self : t) (category_id : cell)
    (bank_transaction : Series) (note : cell) : result Payload :=
  let? amount := getitem bank_transaction "amount" in
  let? date := getitem bank_transaction "date" in
  Ok (mk_payload (active_wallet_id self) category_id amount date note).

(** [MoneyMover._create_payload_from_preset].  The [except] clause
    catches [KeyError] only; its message reads the local [category],
    which is assigned if and only if the first lookup succeeded. *)
Definition _create_payload_from_preset (self : t) (bank_transaction : Series)
    : M Payload :=
  let! category_id :=
    try_except_KeyError
      (let! category := lift (getitem bank_transaction "category_name") in
       let! category_type := lift (getitem bank_transaction "type") in
       _get_category_id self category category_type)
      (λ e,
         match bank_transaction !! "category_name" with
         | Some category =>
             print (py_str category
                    +:+ " is not a valid name for the category") ;;
             raise (KeyError e)
         | None => raise UnboundLocalError
         end) in
  let! note := lift (getitem bank_transaction "note") in
  lift (_create_payload self category_id bank_transaction note).

(** [self.ml_api.add_transaction] with the payload as its keyword
    arguments. *)
Definition add_payload (self : t) (payload : Payload) : M unit :=
  add_transaction (service self) (payload_wallet_id payload)
    (payload_category_id payload) (payload_amount payload)
    (payload_note payload) (payload_date payload).

(** [MoneyMover._transfer_from_presets] *)
Definition _transfer_from_presets (self : t) (transactions_df : DataFrame)
    : M unit :=
  for_each
    (λ '(idx, transaction),
       let! payload := _create_payload_from_preset self transaction in
       add_payload self payload ;;
       print ("Row " +:+ pretty idx +:+ ": " +:+ py_str (payload_note payload)
              +:+ ": " +:+ " " +:+ py_str (payload_amount payload)
              +:+ " - Added to Moneylover"))
    transactions_df.

(** [MoneyMover._fill_manually] *)
Definition _fill_manually (self : t) (id_num : nat)
    (bank_transaction : Series) : M unit :=
  let categories_df := wallet_categories self in
  let! transaction_type := prompt UserPrompts.choose_transaction_type in
  match transaction_type with
  | None => ret tt
  | Some transaction_type =>
      let applicable_categories :=
        filter (λ c, Category.type c = transaction_type) categories_df in
      let! category :=
        prompt (UserPromptsCategory.choose_category applicable_categories) in
      match category with
      | None => ret tt
      | Some category =>
          let! category_id :=
            _get_category_id self (CStr category) (CStr transaction_type) in
          let! note := input in
          let! payload :=
            lift (_create_payload self category_id bank_transaction
                    (CStr note)) in
          add_payload self payload ;;
          print ("Transaction added" +:+ String (ascii_of_nat 10) "")
      end
  end.

(** The truth value of a cell of a boolean column. *)
Definition flag (row : Series) (column : string) : bool :=
  match row !! column with
  | Some (CBool b) => b
  | _ => false
  end.

(** [tr_df[~tr_df["is_in_ml"] & tr_df["has_preset"]]] *)
Definition transactions_to_add (tr_df : DataFrame) : DataFrame :=
  filter (λ r, negb (flag r.2 "is_in_ml") && flag r.2 "has_preset" = true)
    tr_df.

(** [tr_df[~(tr_df["is_in_ml"] | tr_df["has_preset"])]] *)
Definition remaining (tr_df : DataFrame) : DataFrame :=
  filter (λ r, negb (flag r.2 "is_in_ml" || flag r.2 "has_preset") = true)
    tr_df.

(** The two passes that flag the statement, as [print_bank_report] and
    [transfer_bank_transactions] both run them. *)
Definition classify (self : t) (bank_transactions : DataFrame)
    : result DataFrame :=
  let? tr_df := _check_if_already_added self bank_transactions in
  Ok (_compare_to_presets self tr_df).

(** [MoneyMover.transfer_bank_transactions] on the transactions of the
    statement. *)
Definition transfer_bank_transactions (self : t)
    (bank_transactions : DataFrame) : M DataFrame :=
  let! self := request_transactions self (date_range self) in
  let! tr_df := lift (classify self bank_transactions) in
  let to_add := transactions_to_add tr_df in
  let! adding := prompt (UserPrompts.prompt_adding to_add) in
  (if adding then _transfer_from_presets self to_add else ret tt) ;;
  let remaining := remaining tr_df in
  let! manual := prompt (UserPrompts.promt_manual_entry remaining) in
  (if manual
   then for_each (λ '(idx, transaction),
                    _fill_manually self idx transaction) remaining
   else ret tt) ;;
  ret remaining.

End Presets.

End MoneyMover.

(** ** [prompts.py] and [moneymover.py]: choosing the wallet *)

(** A row of the wallets table ([MoneyLoverClient.get_wallets_summary]),
    by its columns. *)
Module Wallet.
Record t : Type := mk {
  _id : string;
  name : string;
  balance : cell;
  currency : string
}.
End Wallet.

Module WalletPrompt.

(** [UserPrompts.choose_wallet]: [int] is called on every line that
    [str.isnumeric] accepts, outside any [try]; [iloc] is within bounds
    after the test. *)
Fixpoint choose_wallet (wallets : list Wallet.t) (stdin : list string)
    : result Wallet.t * list string :=
  match stdin with
  | [] => (Raise EOFError, [])
  | inp :: rest =>
      if isnumeric inp then
        match int inp with
        | Raise e => (Raise e, rest)
        | Ok wallet_id =>
            if bool_decide (0 ≤ wallet_id < Z.of_nat (length wallets))
            then match wallets !! Z.to_nat wallet_id with
                 | Some wallet => (Ok wallet, rest)
                 | None => (Raise IndexError, rest)
                 end
            else choose_wallet wallets rest
        end
      else choose_wallet wallets rest
  end.


End WalletPrompt.

(** ** [moneymover.py]: loading the presets, reporting *)

Module MoneyMoverSetup.
Import MoneyMover.

(** The loop of [_load_presets]: [presets.extend(raw_presets[key])] for
    every key that the file has. *)
Fixpoint extend_presets (raw_presets : gmap string (list Preset))
    (keys : list string) (presets : list Preset) : list Preset :=
  match keys with
  | [] => presets
  | key :: keys' =>
      extend_presets raw_presets keys'
        (match raw_presets !! key with
         | Some listed => presets ++ listed
         | None => presets
         end)
  end.

(** [MoneyMover._load_presets]: [file] is what [json.load] reads from the
    presets file, [None] when the path does not exist; [keys] is [None]
    when the argument is left out. *)
Definition _load_presets (file : option (gmap string (list Preset)))
    (keys : option (list string)) : result (list Preset) :=
  match file with
  | None =>
      Raise (FileNotFoundError
               "Preset file not found. Create a file and pass the right argument")
  | Some raw_presets =>
      let keys := match keys with
                  | None => ["expenses"; "incomes"]
                  | Some keys => keys
                  end in
      Ok (extend_presets raw_presets keys [])
  end.

End MoneyMoverSetup.

Module Report.

(** The truth value of a cell in an [if]. *)
Definition cell_truth (c : cell) : bool :=
  match c with
  | CStr s => negb (bool_decide (s = ""))
  | CInt n => negb (n =? 0)
  | CFloat h => negb (h =? 0)
  | CDate _ => true
  | CBool b => b
  | CNaN => true
  end.

(** The status [UserPrompts.print_report] shows for a row: the text of
    the [if]/[elif]/[else] (the colour goes with it; the line itself is
    rendering). *)
Definition report_status (row : Series) : result string :=
  let? is_in_ml := getitem row "is_in_ml" in
  if cell_truth is_in_ml then Ok "In MoneyLover"
  else
    let? has_preset := getitem row "has_preset" in
    if cell_truth has_preset then Ok "Recognized"
    else Ok "Requires manual entry".

End Report.

(** ** [moneylover_api.py]: the cached access token *)

Module TokenCache.

(** The token file: what it holds and how long ago it was written, in
    microseconds ([datetime] resolution); [None] when there is no file. *)
Record token_file : Type := mk_token_file {
  content : string;
  age : Z
}.

Definition microseconds_per_day : Z := 86400 * 1000000.

(** [MoneyLoverClient._is_token_valid]: [os.path.getmtime] raises
    [FileNotFoundError] when there is no file. *)
Definition _is_token_valid (file : option token_file) (days : Z)
    : result bool :=
  match file with
  | None => Raise (FileNotFoundError "access_token.txt")
  | Some f => Ok (age f <? days * microseconds_per_day)
  end.

(** White space of [str.strip] within Latin-1: the space, the controls
    9 to 13 and 28 to 31, the next-line control (133) and the no-break
    space (160). *)
Definition is_space (c : ascii) : bool :=
  let n := nat_of_ascii c in
  (n =? 32)%nat || ((9 <=? n)%nat && (n <=? 13)%nat)
  || ((28 <=? n)%nat && (n <=? 31)%nat)
  || (n =? 133)%nat || (n =? 160)%nat.

Fixpoint lstrip (s : string) : string :=
  match s with
  | EmptyString => EmptyString
  | String c s' => if is_space c then lstrip s' else s
  end.

Fixpoint rstrip (s : string) : string :=
  match s with
  | EmptyString => EmptyString
  | String c s' =>
      match rstrip s' with
      | EmptyString => if is_space c then EmptyString else String c EmptyString
      | kept => String c kept
      end
  end.

(** [str.strip] *)
Definition strip (s : string) : string := rstrip (lstrip s).

(** [MoneyLoverClient._load_access_token], with the default five days:
    [FileNotFoundError] is caught, anything else would pass. *)
Definition _load_access_token (file : option token_file)
    : result (option string) :=
  match _is_token_valid file 5 with
  | Ok true =>
      match file with
      | Some f => Ok (Some (strip (content f)))
      | None => Ok None
      end
  | Ok false => Ok None
  | Raise (FileNotFoundError _) => Ok None
  | Raise e => Raise e
  end.

(** [MoneyLoverClient._save_access_token]: the file as it is right after
    the write. *)
Definition _save_access_token (token : string) : option token_file :=
  Some (mk_token_file token 0).

End TokenCache.

(** ** Inputs used in examples *)

Module SelectorExamples.
Import Datetime.

(** The file names of [tests/test_ing_parser.py]. *)
Definition test_files : list string :=
  [ "NL55INGB0000000000_01-01-2024_31-01-2024.csv";
    "NL55INGB0000000000_01-02-2024_29-02-2024.csv";
    "NL55INGB0000000000_01-03-2024_30-03-2024.csv";
    "NL55INGB0000000000_01-12-2023_31-12-2023.csv";
    "NL55INGB0000000000_01-11-2023_30-11-2023.csv" ].

(** 2024-04-15 *)
Definition a_day_in_april : Z := toordinal (mk_datetime 2024 4 15).

(** A statement that ended yesterday and one that runs to the end of the
    year. *)
Definition ended_yesterday : string :=
  "NL55INGB0000000000_01-04-2024_14-04-2024.csv".
Definition ends_in_december : string :=
  "NL55INGB0000000000_01-01-2024_31-12-2024.csv".

(** A name of the right shape whose end date is 31 February. *)
Definition impossible_date : string :=
  "NL55INGB0000000000_01-02-2024_31-02-2024.csv".

End SelectorExamples.

Module PromptExamples.

(** A line typed at a prompt: the digit one followed by the superscript
    two (code point 178), and the message of [int] on it. *)
Definition squared : string :=
  String "1" (String (ascii_of_nat 178) EmptyString).

Definition invalid_literal : string :=
  "invalid literal for int() with base 10: '" +:+ squared +:+ "'".

(** A line typed at the wallet prompt: the fraction one half (code point
    189), and the message of [int] on it. *)
Definition one_half : string := String (ascii_of_nat 189) EmptyString.

Definition invalid_literal_half : string :=
  "invalid literal for int() with base 10: '" +:+ one_half +:+ "'".

End PromptExamples.

Module Examples.
Import Datetime MoneyMover.

(** [re.match] with [re.IGNORECASE] for a pattern of plain characters:
    the pattern is a prefix of the value, letter case ignored. *)
Fixpoint literal_match (pattern value : string) : bool :=
  match pattern, value with
  | EmptyString, _ => true
  | String p pattern', String v value' =>
      Ascii.eqb (lower_char p) (lower_char v) && literal_match pattern' value'
  | String _ _, EmptyString => false
  end.

Definition statement_row (date : datetime) (name direction : string)
    (amount : Z) : Series :=
  list_to_map
    [ ("date", CDate date); ("name", CStr name);
      ("account", CStr "NL55INGB0000000000"); ("counterparty", CNaN);
      ("code", CStr "BA"); ("debit/credit", CStr direction);
      ("amount", CFloat amount); ("transaction type", CStr "Payment terminal");
      ("notifications", CStr "Pasvolgnr: 001") ].

Definition groceries : Series :=
  statement_row (mk_datetime 2024 3 5) "Albert Heijn 1234" "Debit" (-1250).
Definition salary : Series :=
  statement_row (mk_datetime 2024 3 25) "Employer BV" "Credit" 250000.
Definition bookshop : Series :=
  statement_row (mk_datetime 2024 3 7) "Boekhandel" "Debit" (-1999).

Definition statement : DataFrame :=
  [ (0%nat, groceries); (1%nat, salary); (2%nat, bookshop) ].

(** Two ledger transactions: one has the amount of [groceries], the
    other its date. *)
Definition ledger : list LedgerTransaction :=
  [ mk_ledger_transaction (CStr "gift") (CFloat (-1250))
      (CDate (mk_datetime 2024 3 1)) (CStr "Gifts");
    mk_ledger_transaction (CStr "rent") (CFloat (-90000))
      (CDate (mk_datetime 2024 3 5)) (CStr "Rentals") ].

(** The first two presets both match [groceries]. *)
Definition presets : list Preset :=
  [ mk_preset [("name", "albert heijn")]
      (mk_label "Groceries" "Food" "expense");
    mk_preset [("name", "albert")] (mk_label "Albert" "Others" "expense");
    mk_preset [("name", "employer"); ("debit/credit", "credit")]
      (mk_label "Salary" "Salary" "income") ].

Definition wallet : string := "W1".

Definition category (type name : string) (_id parent : cell) : Category.t :=
  Category.mk wallet "Cash" type name _id parent.

(** Two [Others] of the same wallet and type; [Snacks] listed twice. *)
Definition categories : list Category.t :=
  [ category "expense" "Food" (CStr "c1") CNaN;
    category "expense" "Bills" (CStr "c2") CNaN;
    category "expense" "Snacks" (CStr "c3") (CStr "c1");
    category "expense" "Restaurants" (CStr "c4") (CStr "c1");
    category "expense" "Snacks" (CStr "c5") (CStr "c1");
    category "expense" "Others" (CStr "c6") CNaN;
    category "expense" "Others" (CStr "c7") CNaN;
    category "income" "Salary" (CStr "c8") CNaN ].

(** [Other] is a child of [Food] and, further down, of [Bills]. *)
Definition categories_shared_name : list Category.t :=
  [ category "expense" "Food" (CStr "c1") CNaN;
    category "expense" "Bills" (CStr "c2") CNaN;
    category "expense" "Other" (CStr "c3") (CStr "c1");
    category "expense" "Other" (CStr "c4") (CStr "c2") ].

(** A ledger service that accepts every request. *)
Definition accepting (_ : MoneyLoverClient.transaction_data) : result unit :=
  Ok tt.

(** The statement runs through March 2024, and the ledger service lists
    [ledger] for every request. *)
Definition march : datetime * datetime :=
  (mk_datetime 2024 3 1, mk_datetime 2024 3 31).

Definition listing (_ : MoneyLoverClient.list_request)
    : result (list LedgerTransaction) :=
  Ok ledger.

Definition mover : MoneyMover.t :=
  MoneyMover.mk presets ledger wallet categories categories accepting
    march listing.

Definition console (lines : list string) : World := mk_world lines [] [] [].

(** The statement after the dedup pass and the preset pass. *)
Definition classified : DataFrame :=
  match classify literal_match mover statement with
  | Ok tr_df => tr_df
  | Raise _ => []
  end.

(** A batch for the automatic pass whose second row names a category
    the wallet does not have. *)
Definition labelled (row : Series) (note category_name type : string)
    : Series :=
  set_label (<["has_preset" := CBool true]> row)
    (mk_label note category_name type).

Definition batch_with_unknown_category : DataFrame :=
  [ (0%nat, labelled groceries "Groceries" "Food" "expense");
    (1%nat, labelled bookshop "Books" "Boooks" "expense");
    (2%nat, labelled salary "Salary" "Salary" "income") ].

End Examples.

Module OrderExamples.
Import IngParser.

(** The matches of [SelectorExamples.ended_yesterday] and
    [SelectorExamples.ends_in_december]. *)
Definition ended_yesterday : Match :=
  mk_match "NL55INGB0000000000_01-04-2024_14-04-2024.csv"
    "NL55INGB0000000000" "01-04-2024" "14-04-2024".
Definition ends_in_december : Match :=
  mk_match "NL55INGB0000000000_01-01-2024_31-12-2024.csv"
    "NL55INGB0000000000" "01-01-2024" "31-12-2024".

End OrderExamples.

Module MoreExamples.
Import MoneyMover.

Definition wallets : list Wallet.t :=
  [ Wallet.mk "W1" "Cash" (CFloat 10000) "EUR";
    Wallet.mk "W2" "Bank" (CFloat 250000) "EUR" ].



(** A presets file with a template that the default keys leave out. *)
Definition raw_presets : gmap string (list Preset) :=
  {[ "incomes" := drop 2 Examples.presets;
     "expenses" := take 2 Examples.presets;
     "example_template" :=
       [ mk_preset [("name", "regex")] (mk_label "note" "name" "expense") ] ]}.

(** A last preset without conditions. *)
Definition catch_all : Preset :=
  mk_preset [] (mk_label "Unsorted" "Bills" "expense").

Definition mover_with_catch_all : MoneyMover.t :=
  MoneyMover.mk (Examples.presets ++ [catch_all]) Examples.ledger
    Examples.wallet Examples.categories Examples.categories Examples.accepting
    Examples.march Examples.listing.

Definition classified_with_catch_all : DataFrame :=
  match classify Examples.literal_match mover_with_catch_all
          Examples.statement with
  | Ok tr_df => tr_df
  | Raise _ => []
  end.

(** A batch for the automatic pass whose labels all resolve, and the
    requests made of its rows. *)
Definition batch : DataFrame :=
  [ (0%nat, Examples.labelled Examples.groceries "Groceries" "Food" "expense");
    (1%nat, Examples.labelled Examples.salary "Salary" "Salary" "income");
    (2%nat, Examples.labelled Examples.bookshop "Books" "Bills" "expense") ].

Definition request_of_groceries : MoneyLoverClient.transaction_data :=
  MoneyLoverClient.mk_transaction_data "W1" (CStr "c1") (CFloat (-1250))
    (CStr "Groceries") "2024-03-05".
Definition request_of_salary : MoneyLoverClient.transaction_data :=
  MoneyLoverClient.mk_transaction_data "W1" (CStr "c8") (CFloat 250000)
    (CStr "Salary") "2024-03-25".
Definition request_of_bookshop : MoneyLoverClient.transaction_data :=
  MoneyLoverClient.mk_transaction_data "W1" (CStr "c2") (CFloat (-1999))
    (CStr "Books") "2024-03-07".

(** A ledger service that answers with an error code to every income. *)
Definition rejecting_incomes (req : MoneyLoverClient.transaction_data)
    : result unit :=
  if bool_decide (MoneyLoverClient.category req = CStr "c8")
  then Raise (MoneyLoverException "Error 1, not allowed")
  else Ok tt.

Definition mover_rejecting_incomes : MoneyMover.t :=
  MoneyMover.mk Examples.presets Examples.ledger Examples.wallet
    Examples.categories Examples.categories rejecting_incomes
    Examples.march Examples.listing.

End MoreExamples.

(** * Properties *)

(** ** Vocabulary of the statements *)

Module SelectorSpec.
Import Datetime IngParser.

(** Both dates in the name of a candidate are calendar dates. *)
Definition well_dated (m : Match) : Prop :=
  ∃ s e, strptime (group_start m) = Ok s ∧ strptime (group_end m) = Ok e.

Definition well_dated_all (file_match : list (option Match)) : Prop :=
  Forall (λ o, match o with Some m => well_dated m | None => True end)
    file_match.

(** What the loop of the selector holds after the candidates [seen]:
    nothing if none matched, else the candidate at some position [i],
    whose signed difference is the least of all and strictly below the
    ones before [i]. *)
Definition selected (today : Z) (seen : list (option Match))
    (st : selector_state) : Prop :=
  (st = initial_state ∧ ∀ m, Some m ∉ seen)
  ∨ (∃ (i : nat) m s e,
       seen !! i = Some (Some m)
       ∧ strptime (group_start m) = Ok s
       ∧ strptime (group_end m) = Ok e
       ∧ st = mk_selector_state (Some (match_string m))
                (Some (days_between today e)) (Some (s, e))
       ∧ ∀ (j : nat) m' e',
           seen !! j = Some (Some m') → strptime (group_end m') = Ok e' →
           days_between today e ≤ days_between today e'
           ∧ ((j < i)%nat → days_between today e < days_between today e')).

End SelectorSpec.

Module DedupSpec.
Import MoneyMover.

(** Every row of the statement has its [amount] and [date], as
    [IngParser._parse_statement] names the columns. *)
Definition has_columns (df : DataFrame) : Prop :=
  Forall (λ r : nat * Series,
            is_Some (r.2 !! "amount") ∧ is_Some (r.2 !! "date")) df.

(** Some ledger transaction has the amount of [row]. *)
Definition amount_in_ledger (self : MoneyMover.t) (row : Series) : Prop :=
  ∃ l a, l ∈ ml_transactions self ∧ row !! "amount" = Some a
         ∧ cell_same a (ledger_amount l) = true.

(** Some ledger transaction has the date of [row]. *)
Definition date_in_ledger (self : MoneyMover.t) (row : Series) : Prop :=
  ∃ l d, l ∈ ml_transactions self ∧ row !! "date" = Some d
         ∧ cell_same d (ledger_date l) = true.

End DedupSpec.

Module PresetSpec.
Import MoneyMover.



End PresetSpec.

Module CategorySpec.

(** [c] is the first row of the table whose name is [n]: the row that
    [drop_duplicates("name")] keeps for that name. *)
Definition first_named (categories : list Category.t) (n : string)
    (c : Category.t) : Prop :=
  ∃ i : nat,
    categories !! i = Some c ∧ Category.name c = n
    ∧ ∀ (j : nat) c', (j < i)%nat → categories !! j = Some c' →
        Category.name c' ≠ n.

(** [o] is [None] or the name of a row of the table. *)
Definition listed (categories : list Category.t) (o : option string) : Prop :=
  o = None ∨ ∃ c, c ∈ categories ∧ o = Some (Category.name c).

(** The object holds rows of the table only, and its selection is
    [None] or the name of a row of the table. *)
Definition listed_state (categories : list Category.t)
    (self : CategorySelector.t) : Prop :=
  (∀ c, c ∈ CategorySelector.categories self → c ∈ categories)
  ∧ listed categories (CategorySelector.selected_category self).

End CategorySpec.

Module TransferSpec.
Import MoneyLoverClient MoneyMover.

(** The category row answers the query [(category_name, category_type)]
    in the active wallet. *)
Definition resolves (self : MoneyMover.t) (category_name category_type : cell)
    (c : Category.t) : Prop :=
  Category.wallet_id c = active_wallet_id self
  ∧ CStr (Category.name c) = category_name
  ∧ CStr (Category.type c) = category_type.



(** Whatever [m] does, its result and the requests it sends, in order,
    satisfy [P]. *)
Definition sends {A} (m : M A)
    (P : result A → list transaction_data → Prop) : Prop :=
  ∀ w res w', m w = (res, w') →
    ∃ new : list transaction_data,
      requests w' = (requests w ++ new)%list ∧ P res new.







(** The [/transaction/list] request of a run: the date range of the
    statement, for the active wallet. *)
Definition list_query (self : MoneyMover.t) : list_request :=
  mk_list_request (Datetime.strftime (date_range self).1)
    (Datetime.strftime (date_range self).2) (active_wallet_id self).

(** The ledger service answers the request of the run with
    [ml_transactions]. *)
Definition lists (self : MoneyMover.t)
    (ml_transactions : list LedgerTransaction) : Prop :=
  ledger_service self (list_query self) = Ok ml_transactions.




End TransferSpec.

Module CategoryTreeSpec.

(** The result of a descent through the tree built from [cats]: nothing,
    the name of a kept row without a parent, or the name of a kept row
    whose [parent] cell is the string form of the id of such a row. *)
Definition two_level (cats : list Category.t) (o : option string) : Prop :=
  o = None
  ∨ ∃ p, CategorySpec.first_named cats (Category.name p) p
         ∧ isna (Category.parent p) = true
         ∧ (o = Some (Category.name p)
            ∨ ∃ c, CategorySpec.first_named cats (Category.name c) c
                   ∧ Category.parent c = CStr (py_str (Category._id p))
                   ∧ o = Some (Category.name c)).

(** A line that selects nothing at the parent prompt: neither digits
    nor [s], or digits that [int] reads as a number that is not the index
    of a parent. *)
Definition rejected (self : CategorySelector.t) (line : string) : Prop :=
  (isdigit line = false ∧ lower line ≠ "s")
  ∨ (isdigit line = true
     ∧ ∃ selected_index,
         int line = Ok selected_index
         ∧ CategorySelector.parent_categories self !! Z.to_nat selected_index
           = None).

(** A line of digits that [int] does not read: it has a superscript
    digit, or more digits than the limit. *)
Definition unreadable_digits (line : string) (e : exn) : Prop :=
  isdigit line = true ∧ int line = Raise e.

(** Where a prompt stops with [e], leaving [rest]: at the end of the
    input, or right after a line of digits that [int] does not read. *)
Definition stops_at (stdin : list string) (e : exn) (rest : list string)
    : Prop :=
  (e = EOFError ∧ rest = [])
  ∨ ∃ (read : list string) line,
      stdin = (read ++ line :: rest)%list ∧ unreadable_digits line e.

End CategoryTreeSpec.

Module PromptSpec.

(** A line the type prompt does not understand. *)
Definition not_a_type (line : string) : Prop :=
  line ≠ "s" ∧ UserPrompts.TRANSACTION_TYPES !! line = None.



End PromptSpec.

Module RunSpec.
Import MoneyLoverClient MoneyMover TransferSpec.

(** The flag the dedup pass gives a row. *)
Definition dedup_flag (self : MoneyMover.t) (row : Series) : bool :=
  match ml_transactions self with
  | [] => false
  | _ =>
      match row !! "amount", row !! "date" with
      | Some a, Some d =>
          isin a (ledger_amount <$> ml_transactions self)
          && isin d (ledger_date <$> ml_transactions self)
      | _, _ => false
      end
  end.

(** The row the preset pass leaves for a row of the dedup pass. *)
Definition labelled_row (re_match : string → string → bool)
    (self : MoneyMover.t) (row : Series) : Series :=
  let bank_transaction := <["has_preset" := CBool false]> row in
  match matched_preset re_match bank_transaction (transaction_presets self) with
  | Some preset =>
      set_label (<["has_preset" := CBool true]> bank_transaction) (label preset)
  | None => bank_transaction
  end.

(** The row both passes leave for a row of the statement. *)
Definition classified_row (re_match : string → string → bool)
    (self : MoneyMover.t) (row : Series) : Series :=
  labelled_row re_match self
    (<["is_in_ml" := CBool (dedup_flag self row)]> row).

(** The row of the statement is not flagged by the dedup pass and no
    preset matches it. *)
Definition unrecognised (re_match : string → string → bool)
    (self : MoneyMover.t) (row : Series) : bool :=
  negb (dedup_flag self row)
  && match matched_preset re_match
             (<["has_preset" := CBool false]>
                (<["is_in_ml" := CBool false]> row))
             (transaction_presets self) with
     | Some _ => false
     | None => true
     end.

(** The row has the two columns the dedup pass reads. *)
Definition has_dedup_columns (r : nat * Series) : Prop :=
  is_Some (r.2 !! "amount") ∧ is_Some (r.2 !! "date").

(** No condition of any preset looks at a column that the preset pass
    writes. *)
Definition conditions_on_statement_columns (presets : list Preset) : Prop :=
  ∀ preset column pattern,
    preset ∈ presets → (column, pattern) ∈ conditions preset →
    column ≠ "note" ∧ column ≠ "category_name" ∧ column ≠ "type".

(** [first] is the first category of the cache that answers the query. *)
Definition resolves_first (self : MoneyMover.t)
    (category_name category_type : cell) (first : Category.t) : Prop :=
  ∃ before after : list Category.t,
    categories_file self = (before ++ first :: after)%list
    ∧ (∀ c, c ∈ before → ¬ resolves self category_name category_type c)
    ∧ resolves self category_name category_type first.

(** The row carries a label that resolves and a date, and [req] is the
    request made of it. *)
Definition request_of_row (self : MoneyMover.t) (r : nat * Series)
    (req : transaction_data) : Prop :=
  ∃ category_name category_type note amount date first,
    r.2 !! "category_name" = Some category_name
    ∧ r.2 !! "type" = Some category_type
    ∧ r.2 !! "note" = Some note
    ∧ r.2 !! "amount" = Some amount
    ∧ r.2 !! "date" = Some (CDate date)
    ∧ resolves_first self category_name category_type first
    ∧ req = mk_transaction_data (active_wallet_id self) (Category._id first)
              amount note (Datetime.strftime date).

End RunSpec.

Module TokenSpec.
Import TokenCache.

(** The file [elapsed] microseconds later, untouched. *)
Definition later (elapsed : Z) (file : option token_file) : option token_file :=
  match file with
  | Some f => Some (mk_token_file (content f) (age f + elapsed))
  | None => None
  end.

(** The text neither starts nor ends with white space. *)
Definition no_surrounding_space (s : string) : Prop :=
  (∀ c s', s = String c s' → TokenCache.is_space c = false)
  ∧ (∀ c s', s = s' +:+ String c "" → TokenCache.is_space c = false).

End TokenSpec.

(** ** The statement selector *)

Section SelectorProofs.
Import Datetime IngParser SelectorSpec.

Lemma selected_initial today : selected today [] initial_state.
Proof. left. split; [done|]. intros m Hm. by apply elem_of_nil in Hm. Qed.

Lemma selected_skip today seen st :
  selected today seen st → selected today (seen ++ [None]) st.
Proof.
  intros [[-> Hnone]|(i & m & s & e & Hi & Hs & He & -> & Hmin)].
  - left. split; [done|]. intros m [Hm|Hm]%elem_of_app.
    + by apply (Hnone m).
    + by apply list_elem_of_singleton in Hm.
  - right. exists i, m, s, e. split_and!; try done.
    + by apply lookup_app_l_Some.
    + intros j m' e' [[_ Hj]|[_ ?]]%lookup_snoc_Some He'; [|done].
      by apply (Hmin j m' e').
Qed.

(** One round of the loop on a candidate whose dates parse. *)
Lemma selected_step today seen st m s e :
  selected today seen st →
  strptime (group_start m) = Ok s → strptime (group_end m) = Ok e →
  selected today (seen ++ [Some m])
    (if improves (days_between today e) (closest_days_diff st)
     then mk_selector_state (Some (match_string m))
            (Some (days_between today e)) (Some (s, e))
     else st).
Proof.
  intros [[-> Hnone]|(i & m0 & s0 & e0 & Hi & Hs0 & He0 & -> & Hmin)] Hs He.
  - right. exists (length seen), m, s, e. simpl. split_and!; try done.
    + by rewrite lookup_app_r, Nat.sub_diag.
    + intros j m' e' [[_ Hj]|[-> [= <-]]]%lookup_snoc_Some He'.
      * exfalso. apply (Hnone m'). by eapply list_elem_of_lookup_2.
      * rewrite He in He'. injection He' as <-. lia.
  - simpl. destruct (Z.ltb_spec (days_between today e) (days_between today e0))
      as [Hlt|Hge]; right.
    + exists (length seen), m, s, e. split_and!; try done.
      * by rewrite lookup_app_r, Nat.sub_diag.
      * intros j m' e' [[_ Hj]|[-> [= <-]]]%lookup_snoc_Some He'.
        -- destruct (Hmin j m' e' Hj He'). lia.
        -- rewrite He in He'. injection He' as <-. lia.
    + exists i, m0, s0, e0. split_and!; try done.
      * by apply lookup_app_l_Some.
      * intros j m' e' [[_ Hj]|[-> [= <-]]]%lookup_snoc_Some He'.
        -- by apply (Hmin j m' e').
        -- rewrite He in He'. injection He' as <-.
           apply lookup_lt_Some in Hi. lia.
Qed.

(** The loop over candidates whose dates all parse ends without an
    exception and keeps the invariant. *)
Lemma closest_loop_selected today file_match :
  ∀ seen st,
    well_dated_all file_match → selected today seen st →
    ∃ st', closest_loop today file_match st = Ok st'
           ∧ selected today (seen ++ file_match) st'.
Proof.
  induction file_match as [|[m|] rest IH]; intros seen st Hwd Hsel.
  - exists st. by rewrite app_nil_r.
  - apply Forall_cons in Hwd as [(s & e & Hs & He) Hwd]. simpl.
    rewrite He, Hs. simpl.
    pose proof (selected_step today seen st m s e Hsel Hs He) as Hstep.
    rewrite cons_middle, app_assoc.
    destruct (improves _ _); by apply IH.
  - apply Forall_cons in Hwd as [_ Hwd]. simpl.
    rewrite cons_middle, app_assoc. apply IH; [done|].
    by apply selected_skip.
Qed.

(** Once a file is held, the loop cannot end with none. *)
Lemma closest_loop_keeps_file today file_match :
  ∀ st st', is_Some (recent_file st) →
            closest_loop today file_match st = Ok st' →
            is_Some (recent_file st').
Proof.
  induction file_match as [|[m|] rest IH]; intros st st' Hsome; simpl.
  - by intros [= <-].
  - destruct (strptime (group_end m)); simpl; [|done].
    destruct (strptime (group_start m)); simpl; [|done].
    destruct (improves _ _); apply IH; [by eexists|done].
  - by apply IH.
Qed.

(** The loop ends with no file exactly when no candidate is a match. *)
Lemma closest_loop_no_file today file_match st' :
  closest_loop today file_match initial_state = Ok st' →
  recent_file st' = None →
  Forall (λ o, o = None) file_match.
Proof.
  induction file_match as [|[m|] rest IH]; simpl; [done| |].
  - destruct (strptime (group_end m)); simpl; [|done].
    destruct (strptime (group_start m)); simpl; [|done].
    intros Hloop Hnone.
    apply closest_loop_keeps_file in Hloop as [f Hf]; [|by eexists].
    congruence.
  - intros Hloop Hnone. constructor; [done|]. by apply IH.
Qed.

Lemma closest_loop_all_none today file_match st :
  Forall (λ o, o = None) file_match →
  closest_loop today file_match st = Ok st.
Proof.
  induction 1 as [|o rest -> _ IH]; [done|]. done.
Qed.

Lemma backtrack_S name n :
  backtrack name (S n)
  = if no_newline (substring 0 (S n) name)
       && has_shape tail_shape (substring (S n) 22 name)
    then Some (mk_match name (substring 0 (S n) name)
                 (substring (S n + 1) 10 name) (substring (S n + 12) 10 name))
    else backtrack name n.
Proof. reflexivity. Qed.

Lemma backtrack_match_string name n m :
  backtrack name n = Some m → match_string m = name.
Proof.
  induction n as [|n IH]; [done|]. rewrite backtrack_S.
  destruct (_ && _); [by intros [= <-]|done].
Qed.

(** What [re.match] with the statement pattern decides: some non-empty
    prefix without a newline is followed by
    [_dd-dd-dddd_dd-dd-dddd]. *)
Lemma re_match_file_pattern_is_Some name :
  is_Some (re_match_file_pattern name)
  ↔ ∃ i : nat, (1 ≤ i ≤ String.length name - 22)%nat
               ∧ no_newline (substring 0 i name) = true
               ∧ has_shape tail_shape (substring i 22 name) = true.
Proof.
  unfold re_match_file_pattern.
  generalize (String.length name - 22)%nat as n.
  induction n as [|n IH].
  - split; [by intros [? ?]|]. intros (i & ? & _). lia.
  - rewrite backtrack_S.
    destruct (no_newline (substring 0 (S n) name)
              && has_shape tail_shape (substring (S n) 22 name)) eqn:Hhere.
    + split; [|by eexists]. intros _. exists (S n).
      apply andb_prop in Hhere as [? ?]. split_and!; [lia|lia|done|done].
    + rewrite IH. split.
      * intros (i & ? & ? & ?). exists i. split_and!; [lia|lia|done|done].
      * intros (i & ? & Hnl & Hsh).
        destruct (decide (i = S n)) as [->|].
        -- rewrite Hnl, Hsh in Hhere. done.
        -- exists i. split_and!; [lia|lia|done|done].
Qed.

(** The selector on candidates whose dates all parse, one of them a
    match: no exception, and the file returned is the first among those
    with the least signed difference. *)
Lemma find_closest_end_date_file_selected today file_match :
  well_dated_all file_match → (∃ m, Some m ∈ file_match) →
  ∃ (i : nat) m s e,
    file_match !! i = Some (Some m)
    ∧ strptime (group_start m) = Ok s
    ∧ strptime (group_end m) = Ok e
    ∧ _find_closest_end_date_file today file_match
      = Ok (match_string m, Some (s, e))
    ∧ ∀ (j : nat) m' e',
        file_match !! j = Some (Some m') → strptime (group_end m') = Ok e' →
        days_between today e ≤ days_between today e'
        ∧ ((j < i)%nat → days_between today e < days_between today e').
Proof.
  intros Hwd [m0 Hm0].
  destruct (closest_loop_selected today file_match [] initial_state Hwd
              (selected_initial today)) as (st' & Hloop & Hsel).
  simpl in Hsel.
  destruct Hsel as [[-> Hnone]|(i & m & s & e & Hi & Hs & He & -> & Hmin)].
  - by destruct (Hnone m0).
  - exists i, m, s, e. split_and!; try done.
    unfold _find_closest_end_date_file. by rewrite Hloop.
Qed.


Lemma test_files_well_dated :
  well_dated_all (re_match_file_pattern <$> SelectorExamples.test_files).
Proof.
  repeat constructor; do 2 eexists; split; vm_compute; reflexivity.
Defined.



Lemma strptime_raises s e :
  strptime s = Raise e → ∃ msg, e = ValueError msg.
Proof.
  unfold strptime, strptime_shape.
  repeat case_match; intros [= <-]; by eexists.
Qed.

(** The loop raises nothing but the [ValueError] of [strptime]. *)
Lemma closest_loop_raises today file_match :
  ∀ st e, closest_loop today file_match st = Raise e → ∃ msg, e = ValueError msg.
Proof.
  induction file_match as [|[m|] rest IH]; intros st e; simpl; [done| |].
  - destruct (strptime (group_end m)) eqn:He; simpl;
      [|intros [= <-]; by eapply strptime_raises].
    destruct (strptime (group_start m)) eqn:Hs; simpl;
      [|intros [= <-]; by eapply strptime_raises].
    destruct (improves _ _); apply IH.
  - apply IH.
Qed.

(** C9 (as amended).  [_find_statement] raises [FileNotFoundError] if
    and only if no file name of the folder matches the statement pattern.
    When some name matches and the dates in every matching name are
    calendar dates, it raises nothing and returns a name of the folder
    that matches. *)
Theorem find_statement_not_found today csv_files :
  (_find_statement today csv_files
   = Raise (FileNotFoundError "ING bank statement is not found")
   ↔ Forall (λ f, re_match_file_pattern f = None) csv_files)
  ∧ ((∃ f, f ∈ csv_files ∧ is_Some (re_match_file_pattern f)) →
     well_dated_all (re_match_file_pattern <$> csv_files) →
     ∃ f range,
       _find_statement today csv_files = Ok (f, range)
       ∧ f ∈ csv_files ∧ is_Some (re_match_file_pattern f)).
Proof.
  split; [split|].
  - unfold _find_statement, _find_closest_end_date_file.
    destruct (closest_loop today (re_match_file_pattern <$> csv_files)
                initial_state) as [st'|e] eqn:Hloop; simpl.
    2:{ apply closest_loop_raises in Hloop as [msg ->]. done. }
    destruct (recent_file st') eqn:Hfile; [done|]. intros _.
    apply closest_loop_no_file in Hloop; [|done].
    by apply Forall_fmap in Hloop.
  - intros Hnone. unfold _find_statement, _find_closest_end_date_file.
    rewrite closest_loop_all_none; [done|]. by apply Forall_fmap.
  - intros (f0 & Hf0 & [m0 Hm0]) Hwd.
    destruct (find_closest_end_date_file_selected today
                (re_match_file_pattern <$> csv_files) Hwd)
      as (i & m & s & e & Hi & _ & _ & Hres & _).
    { exists m0. apply list_elem_of_fmap. by exists f0. }
    rewrite list_lookup_fmap in Hi.
    destruct (csv_files !! i) as [f|] eqn:Hf; [|done].
    simpl in Hi. injection Hi as Hm.
    exists f, (Some (s, e)).
    pose proof (backtrack_match_string _ _ _ Hm) as Hname.
    rewrite Hname in Hres.
    split_and!; [done| |by eexists].
    by eapply list_elem_of_lookup_2.
Qed.

Lemma find_statement_not_found_witness :
  ∃ f range,
    _find_statement SelectorExamples.a_day_in_april SelectorExamples.test_files
    = Ok (f, range)
    ∧ f ∈ SelectorExamples.test_files ∧ is_Some (re_match_file_pattern f).
Proof.
  apply (find_statement_not_found SelectorExamples.a_day_in_april
           SelectorExamples.test_files).
  - eexists. split; [left|]. vm_compute. by eexists.
  - exact test_files_well_dated.
Defined.

(** C9, as it was stated, fails: a name that matches the pattern but
    carries 31 February makes the selector raise [ValueError]; no file is
    returned. *)
Lemma matching_name_counterexample :
  is_Some (re_match_file_pattern SelectorExamples.impossible_date)
  ∧ _find_statement SelectorExamples.a_day_in_april
      [SelectorExamples.impossible_date]
    = Raise (ValueError "time data does not match format").
Proof. split; [vm_compute; by eexists|vm_compute; reflexivity]. Qed.

(** [tests/test_ing_parser.py::test_find_closest_end_date_file], run on
    2024-04-15. *)
Example test_find_closest_end_date_file :
  ∃ range,
    _find_statement SelectorExamples.a_day_in_april SelectorExamples.test_files
    = Ok ("NL55INGB0000000000_01-03-2024_30-03-2024.csv", range).
Proof. eexists. vm_compute. reflexivity. Qed.

End SelectorProofs.

(** ** The dedup pass *)

Section DedupProofs.
Import MoneyMover DedupSpec.

Lemma column_lookup df name cs :
  column df name = Ok cs →
  length cs = length df
  ∧ ∀ (i : nat) idx row, df !! i = Some (idx, row) →
      ∃ c, row !! name = Some c ∧ cs !! i = Some c.
Proof.
  revert cs. induction df as [|[idx0 row0] df IH]; intros cs; simpl.
  - intros [= <-]. split; [done|]. by intros [|?] ? ?.
  - unfold getitem. destruct (row0 !! name) as [c|] eqn:Hc; simpl; [|done].
    destruct (column df name) as [cs'|] eqn:Hcs; simpl; [|done].
    intros [= <-]. destruct (IH cs' eq_refl) as [Hlen Hrows].
    split; [simpl; by rewrite Hlen|].
    intros [|i] idx row; simpl.
    + intros [= <- <-]. by exists c.
    + apply Hrows.
Qed.

Lemma column_Ok df name :
  Forall (λ r : nat * Series, is_Some (r.2 !! name)) df →
  ∃ cs, column df name = Ok cs.
Proof.
  induction 1 as [|[idx row] df [c Hc] _ [cs IH]]; simpl; [by eexists|].
  simpl in Hc. unfold getitem. rewrite Hc, IH. by eexists.
Qed.

Lemma set_column_lookup df name vs (i : nat) idx row v :
  df !! i = Some (idx, row) → vs !! i = Some v →
  set_column df name vs !! i = Some (idx, <[name := v]> row).
Proof.
  intros Hdf Hvs. unfold set_column.
  rewrite lookup_zip_with, Hdf. simpl. by rewrite Hvs.
Qed.

Lemma isin_true c values :
  isin c values = true ↔ ∃ v, v ∈ values ∧ cell_same c v = true.
Proof.
  unfold isin. induction values as [|v values IH]; simpl.
  - split; [done|]. intros (v & Hv & _). by apply elem_of_nil in Hv.
  - rewrite orb_true_iff, IH. split.
    + intros [?|(v' & ? & ?)]; [exists v|exists v']; split; try done;
        [left|by right].
    + intros (v' & [->|?]%elem_of_cons & ?); [by left|right; by exists v'].
Qed.

(** C2.  On a statement whose rows have their amount and date, the dedup
    pass ends without an exception, keeps the rows in place and sets
    [is_in_ml] of each row to true if and only if some ledger transaction
    has the row's amount and some ledger transaction, the same or another
    one, has the row's date. *)
Theorem check_if_already_added_independent self bank_transactions :
  has_columns bank_transactions →
  ∃ df,
    _check_if_already_added self bank_transactions = Ok df
    ∧ length df = length bank_transactions
    ∧ ∀ (i : nat) idx row,
        bank_transactions !! i = Some (idx, row) →
        ∃ b : bool,
          df !! i = Some (idx, <["is_in_ml" := CBool b]> row)
          ∧ (b = true ↔ amount_in_ledger self row ∧ date_in_ledger self row).
Proof.
  intros Hcols. unfold _check_if_already_added.
  destruct (ml_transactions self) as [|l0 ls] eqn:Hml.
  - eexists. split; [done|]. split.
    + unfold set_column. rewrite length_zip_with_l_eq; [done|].
      by rewrite length_replicate.
    + intros i idx row Hrow. exists false. split.
      * apply set_column_lookup; [done|]. apply lookup_replicate_2.
        by eapply lookup_lt_Some.
      * split; [done|]. unfold amount_in_ledger. rewrite Hml.
        intros [(l & ? & Hl & _) _]. by apply elem_of_nil in Hl.
  - rewrite <- Hml. clear Hml l0 ls.
    destruct (column_Ok bank_transactions "amount") as [amounts Ha].
    { eapply Forall_impl; [exact Hcols|]. by intros ? [? _]. }
    destruct (column_Ok bank_transactions "date") as [dates Hd].
    { eapply Forall_impl; [exact Hcols|]. by intros ? [_ ?]. }
    rewrite Ha, Hd. simpl.
    apply column_lookup in Ha as [Hlena Ha].
    apply column_lookup in Hd as [Hlend Hd].
    eexists. split; [done|]. split.
    + unfold set_column. rewrite length_zip_with_l_eq; [done|].
      rewrite length_fmap, length_zip_with_l_eq;
        rewrite !length_fmap; congruence.
    + intros i idx row Hrow.
      destruct (Ha i idx row Hrow) as (a & Hrowa & Hai).
      destruct (Hd i idx row Hrow) as (d & Hrowd & Hdi).
      exists (isin a (ledger_amount <$> ml_transactions self)
              && isin d (ledger_date <$> ml_transactions self)).
      split.
      * apply set_column_lookup; [done|].
        rewrite list_lookup_fmap, lookup_zip_with, !list_lookup_fmap.
        by rewrite Hai, Hdi.
      * rewrite andb_true_iff, !isin_true.
        unfold amount_in_ledger, date_in_ledger. split.
        -- intros [(v & (l & -> & Hl)%list_elem_of_fmap & Hv)
                     (v' & (l' & -> & Hl')%list_elem_of_fmap & Hv')].
           split; [by exists l, a|by exists l', d].
        -- intros [(l & a' & Hl & Ha' & Hv) (l' & d' & Hl' & Hd' & Hv')].
           rewrite Hrowa in Ha'. rewrite Hrowd in Hd'.
           injection Ha' as <-. injection Hd' as <-.
           split; [exists (ledger_amount l)|exists (ledger_date l')];
             (split; [apply list_elem_of_fmap; by eexists|done]).
Qed.

Lemma check_if_already_added_independent_witness :
  ∃ df,
    _check_if_already_added Examples.mover Examples.statement = Ok df
    ∧ length df = length Examples.statement
    ∧ ∀ (i : nat) idx row,
        Examples.statement !! i = Some (idx, row) →
        ∃ b : bool,
          df !! i = Some (idx, <["is_in_ml" := CBool b]> row)
          ∧ (b = true ↔ amount_in_ledger Examples.mover row
                        ∧ date_in_ledger Examples.mover row).
Proof.
  apply (check_if_already_added_independent Examples.mover Examples.statement).
  repeat constructor; eexists; vm_compute; reflexivity.
Defined.

(** The cross-row case: [groceries] is flagged although no ledger
    transaction has both its amount and its date. *)
Example check_if_already_added_cross_row :
  (∃ df row,
     _check_if_already_added Examples.mover Examples.statement = Ok df
     ∧ df !! 0%nat = Some (0%nat, row)
     ∧ row !! "is_in_ml" = Some (CBool true))
  ∧ Forall (λ l, ¬ (cell_same (CFloat (-1250)) (ledger_amount l) = true
                    ∧ cell_same (CDate (Datetime.mk_datetime 2024 3 5))
                        (ledger_date l) = true))
      (ml_transactions Examples.mover).
Proof.
  split.
  - do 2 eexists. split_and!; [reflexivity|reflexivity|].
    vm_compute. reflexivity.
  - repeat constructor; vm_compute; intros [? ?]; discriminate.
Qed.

End DedupProofs.

(** ** The preset pass *)

Section PresetProofs.
Import MoneyMover PresetSpec.
Variable re_match : string → string → bool.








End PresetProofs.

Section PresetExamples.
Import MoneyMover PresetSpec.


(** Two presets match [groceries]; the label is the first one's. *)
Example compare_to_presets_two_matches :
  _is_preset_matched Examples.literal_match Examples.groceries
    (mk_preset [("name", "albert heijn")] (mk_label "Groceries" "Food" "expense"))
  = true
  ∧ _is_preset_matched Examples.literal_match Examples.groceries
      (mk_preset [("name", "albert")] (mk_label "Albert" "Others" "expense"))
    = true
  ∧ ∃ row,
      _compare_to_presets Examples.literal_match Examples.mover
        Examples.statement !! 0%nat = Some (0%nat, row)
      ∧ row !! "note" = Some (CStr "Groceries")
      ∧ row !! "category_name" = Some (CStr "Food").
Proof.
  split_and!; [vm_compute; reflexivity|vm_compute; reflexivity|].
  eexists. split_and!; [reflexivity|vm_compute; reflexivity..].
Qed.

End PresetExamples.

(** ** The category tree *)

Section DropDuplicates.
Context {A : Type} (key : A → string).

Lemma drop_duplicates_seen_elem seen rows r :
  r ∈ drop_duplicates_seen key seen rows
  ↔ (key r ∉ seen)
    ∧ ∃ i : nat, rows !! i = Some r
                 ∧ ∀ (j : nat) r', (j < i)%nat → rows !! j = Some r' →
                     key r' ≠ key r.
Proof.
  revert seen. induction rows as [|r0 rows IH]; intros seen; simpl.
  - split.
    + intros Hr. by apply elem_of_nil in Hr.
    + by intros (_ & [|?] & ? & _).
  - case_bool_decide as Hseen.
    + rewrite IH. split.
      * intros (Hr & i & Hi & Hfirst). split; [done|]. exists (S i).
        split; [done|]. intros [|j] r'; simpl.
        -- intros _ [= <-] Heq. rewrite Heq in Hseen. done.
        -- intros ?. apply Hfirst. lia.
      * intros (Hr & [|i] & Hi & Hfirst); simpl in Hi.
        -- injection Hi as ->. done.
        -- split; [done|]. exists i. split; [done|].
           intros j r' ? ?. apply (Hfirst (S j)); [lia|done].
    + rewrite elem_of_cons, IH. split.
      * intros [->|(Hr & i & Hi & Hfirst)].
        -- split; [done|]. exists 0%nat. split; [done|]. intros; lia.
        -- apply not_elem_of_cons in Hr as [Hne Hr]. split; [done|].
           exists (S i). split; [done|]. intros [|j] r'; simpl.
           ++ by intros _ [= <-].
           ++ intros ?. apply Hfirst. lia.
      * intros (Hr & [|i] & Hi & Hfirst); simpl in Hi.
        -- left. by injection Hi as ->.
        -- right. split.
           ++ apply not_elem_of_cons. split; [|done].
              intros Heq. by apply (Hfirst 0%nat r0); [lia| |].
           ++ exists i. split; [done|].
              intros j r' ? ?. apply (Hfirst (S j)); [lia|done].
Qed.

Lemma drop_duplicates_elem rows r :
  r ∈ drop_duplicates key rows
  ↔ ∃ i : nat, rows !! i = Some r
               ∧ ∀ (j : nat) r', (j < i)%nat → rows !! j = Some r' →
                   key r' ≠ key r.
Proof.
  unfold drop_duplicates. rewrite drop_duplicates_seen_elem.
  split; [by intros [_ ?]|]. intros ?. split; [|done]. by intros ?%elem_of_nil.
Qed.

Lemma drop_duplicates_subseteq rows r :
  r ∈ drop_duplicates key rows → r ∈ rows.
Proof.
  intros (i & Hi & _)%drop_duplicates_elem. by eapply list_elem_of_lookup_2.
Qed.

Lemma drop_duplicates_seen_NoDup seen rows :
  NoDup (key <$> drop_duplicates_seen key seen rows).
Proof.
  revert seen. induction rows as [|r0 rows IH]; intros seen; simpl.
  - constructor.
  - case_bool_decide; [apply IH|]. simpl. constructor; [|apply IH].
    intros (r & Heq & Hr)%list_elem_of_fmap.
    apply drop_duplicates_seen_elem in Hr as [Hr _].
    apply Hr. rewrite <- Heq. by left.
Qed.

Lemma drop_duplicates_NoDup rows : NoDup (key <$> drop_duplicates key rows).
Proof. apply drop_duplicates_seen_NoDup. Qed.

End DropDuplicates.

Lemma drop_duplicates_id_NoDup (names : list string) :
  NoDup (drop_duplicates id names).
Proof.
  pose proof (drop_duplicates_NoDup id names) as H.
  by rewrite list_fmap_id in H.
Qed.

Lemma drop_duplicates_id_elem (names : list string) n :
  n ∈ drop_duplicates id names ↔ n ∈ names.
Proof.
  split; [apply drop_duplicates_subseteq|].
  induction names as [|n0 names IH] using rev_ind.
  - by intros ?%elem_of_nil.
  - intros [Hn|Hn%list_elem_of_singleton]%elem_of_app.
    + apply IH in Hn. apply drop_duplicates_elem in Hn as (i & Hi & Hfirst).
      apply drop_duplicates_elem. exists i.
      split; [by apply lookup_app_l_Some|].
      intros j r' Hj Hr'. apply (Hfirst j r' Hj).
      rewrite lookup_app_l in Hr'; [done|].
      apply lookup_lt_Some in Hi. lia.
    + subst n0. destruct (decide (n ∈ names)) as [Hin|Hnotin].
      * apply IH in Hin. apply drop_duplicates_elem in Hin as (i & Hi & Hfirst).
        apply drop_duplicates_elem. exists i.
        split; [by apply lookup_app_l_Some|].
        intros j r' Hj Hr'. apply (Hfirst j r' Hj).
        rewrite lookup_app_l in Hr'; [done|].
        apply lookup_lt_Some in Hi. lia.
      * apply drop_duplicates_elem. exists (length names).
        split; [by rewrite lookup_app_r, Nat.sub_diag|].
        intros j r' Hj Hr' Heq. unfold id in Heq. subst r'.
        rewrite lookup_app_l in Hr' by done.
        apply Hnotin. by eapply list_elem_of_lookup_2.
Qed.

Section CategoryProofs.
Import CategorySelector CategorySpec.

Lemma init_categories_elem cats c :
  c ∈ categories (__init__ cats) ↔ first_named cats (Category.name c) c.
Proof.
  unfold __init__, first_named. simpl. rewrite drop_duplicates_elem.
  split; intros (i & Hi & H); exists i; [by split_and!|].
  destruct H as [_ H]. by split.
Qed.

Lemma first_named_unique cats n c c' :
  first_named cats n c → first_named cats n c' → c = c'.
Proof.
  intros (i & Hi & Hn & Hfirst) (i' & Hi' & Hn' & Hfirst').
  destruct (Nat.lt_trichotomy i i') as [Hlt|[->|Hlt]].
  - by destruct (Hfirst' i c Hlt Hi).
  - congruence.
  - by destruct (Hfirst i' c' Hlt Hi').
Qed.

Lemma cell_eq_str_true c s : cell_eq_str c s = true ↔ c = CStr s.
Proof.
  destruct c; simpl; try (split; [done|by intros [=]]).
  rewrite bool_decide_eq_true. split; [by intros ->|by intros [= ->]].
Qed.

(** C7 (as amended).  [children(parent_name)], for a parent name that is
    in the list, returns without an exception a list of names that has no
    duplicates.  A name is in it exactly when the first row of the list
    with that name, the one the constructor keeps, has a [parent] cell
    equal to the string form of the [_id] of the first row named
    [parent_name].  Only the id is converted with [str]; the [parent] cell
    is compared as it is stored. *)
Theorem get_children_of_kept_rows cats parent_category p :
  first_named cats parent_category p →
  ∃ children,
    _get_children (__init__ cats) parent_category = Ok children
    ∧ NoDup children
    ∧ ∀ n, n ∈ children
           ↔ ∃ c, first_named cats n c
                  ∧ Category.parent c = CStr (py_str (Category._id p)).
Proof.
  intros Hp. unfold _get_children.
  destruct (filter (λ c, Category.name c = parent_category)
              (categories (__init__ cats))) as [|q rest] eqn:Hfilter.
  - exfalso. assert (p ∈ @nil Category.t) as Hin; [|by apply elem_of_nil in Hin].
    rewrite <- Hfilter. apply list_elem_of_filter.
    destruct Hp as (i & Hi & Hn & Hfirst). split; [done|].
    apply init_categories_elem. exists i. split_and!; try done. by rewrite Hn.
  - assert (q = p) as ->.
    { assert (q ∈ q :: rest) as Hq by left.
      rewrite <- Hfilter in Hq. apply list_elem_of_filter in Hq as [Hname Hq].
      apply init_categories_elem in Hq. rewrite Hname in Hq.
      by eapply first_named_unique. }
    eexists. split; [done|]. split; [apply drop_duplicates_id_NoDup|].
    intros n. rewrite drop_duplicates_id_elem, list_elem_of_fmap. split.
    + intros (c & -> & [Hpar Hc]%list_elem_of_filter). exists c.
      split; [by apply init_categories_elem|by apply cell_eq_str_true].
    + intros (c & Hc & Hpar). exists c. split; [by destruct Hc as (? & ? & ? & ?)|].
      apply list_elem_of_filter. split; [by apply cell_eq_str_true|].
      apply init_categories_elem.
      destruct Hc as (i & Hi & Hn & Hfirst). exists i. split_and!; try done.
      by rewrite Hn.
Qed.

Lemma get_children_of_kept_rows_witness :
  ∃ children,
    _get_children (__init__ Examples.categories) "Food" = Ok children
    ∧ NoDup children
    ∧ ∀ n, n ∈ children
           ↔ ∃ c, first_named Examples.categories n c
                  ∧ Category.parent c = CStr "c1".
Proof.
  apply (get_children_of_kept_rows Examples.categories "Food"
           (Examples.category "expense" "Food" (CStr "c1") CNaN)).
  exists 0%nat. split_and!; [reflexivity|reflexivity|intros; lia].
Defined.

(** C7, as it was stated, fails: [Other] is listed under [Food] and then
    under [Bills]; the constructor keeps the first row of each name, so the
    children of [Bills] come out empty although a row of the list has
    [Bills] as its parent. *)
Lemma get_children_counterexample :
  let other_of_bills := Examples.category "expense" "Other" (CStr "c4") (CStr "c2") in
  let bills := Examples.category "expense" "Bills" (CStr "c2") CNaN in
  other_of_bills ∈ Examples.categories_shared_name
  ∧ bills ∈ Examples.categories_shared_name
  ∧ py_str (Category.parent other_of_bills) = py_str (Category._id bills)
  ∧ _get_children (__init__ Examples.categories_shared_name) "Bills" = Ok [].
Proof.
  simpl. split_and!; [|by right; left|reflexivity|vm_compute; reflexivity].
  do 3 right. left.
Qed.

(** Repeated child rows give one name. *)
Example get_children_repeated_rows :
  _get_children (__init__ Examples.categories) "Food"
  = Ok ["Snacks"; "Restaurants"].
Proof. vm_compute. reflexivity. Qed.

Lemma listed_state_set cats self o :
  listed_state cats self → listed cats o →
  listed_state cats (set_selected self o).
Proof. intros [Hcats _] Ho. by split. Qed.

Lemma parent_categories_elem self (k : nat) p n :
  parent_categories self !! k = Some (p, n) → p ∈ categories self.
Proof.
  unfold parent_categories, _count_subcategories.
  rewrite list_lookup_fmap.
  destruct (filter _ (categories self) !! k) as [q|] eqn:Hq; [|done].
  simpl. intros [= <- _].
  apply list_elem_of_lookup_2 in Hq. by apply list_elem_of_filter in Hq as [_ ?].
Qed.

Lemma get_children_elem self parent_category subcategories n :
  _get_children self parent_category = Ok subcategories →
  n ∈ subcategories →
  ∃ c, c ∈ categories self ∧ n = Category.name c.
Proof.
  unfold _get_children. destruct (filter _ (categories self)); [done|].
  intros [= <-] Hn%drop_duplicates_subseteq.
  apply list_elem_of_fmap in Hn as (c & -> & Hc).
  apply list_elem_of_filter in Hc as [_ Hc]. by exists c.
Qed.

(** The sub-category prompt keeps the selection a listed name and never
    hands lines back. *)
Lemma select_subcategory_listed cats subcategories stdin :
  ∀ self res self' rest,
    listed_state cats self →
    (∀ n, n ∈ subcategories → ∃ c, c ∈ cats ∧ n = Category.name c) →
    _select_subcategory self subcategories stdin = (res, self', rest) →
    listed_state cats self' ∧ (length rest ≤ length stdin)%nat.
Proof.
  induction stdin as [|user_input stdin IH]; intros self res self' rest Hst Hsubs;
    simpl.
  - intros [= <- <- <-]. by split.
  - destruct (isdigit user_input).
    + destruct (int user_input) as [selected_index|e];
        [|intros [= <- <- <-]; split; [done|lia]].
      destruct (subcategories !! Z.to_nat selected_index) as [sub|] eqn:Hsub.
      * intros [= <- <- <-]. split; [|lia].
        apply listed_state_set; [done|]. right.
        destruct (Hsubs sub) as (c & Hc & ->); [by eapply list_elem_of_lookup_2|].
        by exists c.
      * intros Hrec. destruct (IH _ _ _ _ Hst Hsubs Hrec). split; [done|lia].
    + case_bool_decide; [intros [= <- <- <-]; split; [done|lia]|].
      case_bool_decide; [intros [= <- <- <-]; split; [done|lia]|].
      intros Hrec. destruct (IH _ _ _ _ Hst Hsubs Hrec). split; [done|lia].
Qed.

(** One round of the parent prompt keeps the selection a listed name, and
    a round that does not raise has read at least one line. *)
Lemma category_selected_listed cats self stdin res self' rest :
  listed_state cats self →
  _category_selected self stdin = (res, self', rest) →
  listed_state cats self'
  ∧ (∀ b, res = Ok b → (length rest < length stdin)%nat).
Proof.
  intros Hst. destruct stdin as [|user_input stdin]; simpl.
  - intros [= <- <- <-]. by split.
  - destruct (isdigit user_input).
    + destruct (int user_input) as [selected_index|e];
        [|intros [= <- <- <-]; by split].
      destruct (parent_categories self !! Z.to_nat selected_index)
        as [[p n]|] eqn:Hp.
      * assert (listed_state cats (set_selected self (Some (Category.name p))))
          as Hst'.
        { apply listed_state_set; [done|]. right. exists p. split; [|done].
          apply Hst. by eapply parent_categories_elem. }
        destruct (_get_children _ _) as [[|sub subs]|e] eqn:Hchildren.
        -- intros [= <- <- <-]. split; [done|]. intros; lia.
        -- destruct (_select_subcategory _ (sub :: subs) stdin)
             as [[res0 self0] rest0] eqn:Hsel.
           apply select_subcategory_listed with (cats := cats) in Hsel
             as [Hst0 Hlen]; [|done|].
           ++ destruct res0; intros [= <- <- <-]; (split; [done|]);
                intros; lia.
           ++ intros n0 Hn0.
              destruct (get_children_elem _ _ _ _ Hchildren Hn0)
                as (c & Hc & ->).
              exists c. split; [|done]. by apply Hst.
        -- intros [= <- <- <-]. split; [done|]. done.
      * intros [= <- <- <-]. split; [done|]. intros; lia.
    + case_bool_decide; intros [= <- <- <-].
      * split; [|intros; lia]. apply listed_state_set; [done|]. by left.
      * split; [done|]. intros; lia.
Qed.

Lemma run_loop_listed cats fuel :
  ∀ self stdin v rest,
    listed_state cats self →
    run_loop fuel self stdin = (Ok v, rest) → listed cats v.
Proof.
  induction fuel as [|fuel IH]; intros self stdin v rest Hst; simpl; [done|].
  destruct (_category_selected self stdin) as [[res self'] rest'] eqn:Hround.
  apply category_selected_listed with (cats := cats) in Hround as [Hst' _];
    [|done].
  destruct res as [[|]|e]; [|by apply IH|done].
  intros [= <- <-]. apply Hst'.
Qed.

(** [run] needs no more rounds than there are lines: any larger bound
    gives the same result. *)
Lemma run_loop_fuel cats fuel :
  ∀ fuel' self stdin,
    listed_state cats self →
    (length stdin < fuel)%nat → (length stdin < fuel')%nat →
    run_loop fuel self stdin = run_loop fuel' self stdin.
Proof.
  induction fuel as [|fuel IH]; intros [|fuel'] self stdin Hst Hf Hf';
    [lia..|]. simpl.
  destruct (_category_selected self stdin) as [[res self'] rest'] eqn:Hround.
  apply category_selected_listed with (cats := cats) in Hround as [Hst' Hlen];
    [|done].
  destruct res as [[|]|e]; [done| |done].
  specialize (Hlen false eq_refl). apply IH; [done|lia..].
Qed.

Lemma init_listed_state cats : listed_state cats (__init__ cats).
Proof.
  split; [|by left]. intros c. apply drop_duplicates_subseteq.
Qed.

(** C10.  Whenever the category-selection loop returns, it returns [None]
    or the name of a row of the table it was given. *)
Theorem run_returns_listed_name cats stdin v rest :
  run (__init__ cats) stdin = (Ok v, rest) →
  v = None ∨ ∃ c, c ∈ cats ∧ v = Some (Category.name c).
Proof.
  unfold run. apply run_loop_listed, init_listed_state.
Qed.

Lemma run_returns_listed_name_witness :
  Some "Restaurants" = None
  ∨ ∃ c, c ∈ Examples.categories ∧ Some "Restaurants" = Some (Category.name c).
Proof.
  apply (run_returns_listed_name Examples.categories ["0"; "x"; "1"]
           (Some "Restaurants") []).
  vm_compute. reflexivity.
Defined.

(** The descent: back from the children, skip, parent accepted with an
    empty line, a parent without children. *)
Example run_back_then_skip :
  run (__init__ Examples.categories) ["0"; "b"; "S"; "left"] = (Ok None, ["left"]).
Proof. vm_compute. reflexivity. Qed.

Example run_accept_parent :
  run (__init__ Examples.categories) ["7"; "0"; ""] = (Ok (Some "Food"), []).
Proof. vm_compute. reflexivity. Qed.

Example run_parent_without_children :
  run (__init__ Examples.categories) ["1"] = (Ok (Some "Bills"), []).
Proof. vm_compute. reflexivity. Qed.

Example run_out_of_lines :
  run (__init__ Examples.categories) ["0"; "9"] = (Raise EOFError, []).
Proof. vm_compute. reflexivity. Qed.

End CategoryProofs.

(** ** Category-id resolution *)

Section ResolutionProofs.
Import MoneyLoverClient MoneyLoverClientOps MoneyMover TransferSpec.

Lemma filter_none {A} (P : A → Prop) `{∀ x, Decision (P x)} (l : list A) :
  (∀ x, x ∈ l → ¬ P x) → filter P l = [].
Proof.
  induction l as [|x l IH]; [done|]. intros Hall.
  rewrite filter_cons. destruct (decide (P x)) as [HP|_].
  - destruct (Hall x); [by left|done].
  - apply IH. intros y Hy. apply Hall. by right.
Qed.

(** C5.  Category-id resolution raises [ValueError] when no category of
    the table matches the wallet, the name and the type, and changes
    nothing.  When more than one matches it raises nothing: it prints one
    warning line with the number of matches and returns the id of the first
    match in table order.  With exactly one match it returns that id and
    prints nothing. *)
Theorem get_category_id_resolution self category_name category_type w :
  ((∀ c, c ∈ categories_file self →
      ¬ resolves self category_name category_type c) →
   _get_category_id self category_name category_type w
   = (Raise (ValueError ("No matching category found for "
                           +:+ py_str category_name)), w))
  ∧ (∀ (before : list Category.t) first between second after,
       categories_file self
       = (before ++ first :: between ++ second :: after)%list →
       (∀ c, c ∈ before → ¬ resolves self category_name category_type c) →
       resolves self category_name category_type first →
       resolves self category_name category_type second →
       ∃ n : nat,
         (2 ≤ n)%nat
         ∧ _get_category_id self category_name category_type w
           = (Ok (Category._id first),
              mk_world (stdin w)
                (stdout w ++ [pretty n +:+ " id matches for the " +:+ " "
                              +:+ "name " +:+ py_str category_name +:+ "."])
                (requests w) (queries w)))
  ∧ (∀ (before : list Category.t) only after,
       categories_file self = (before ++ only :: after)%list →
       (∀ c, c ∈ (before ++ after)%list →
          ¬ resolves self category_name category_type c) →
       resolves self category_name category_type only →
       _get_category_id self category_name category_type w
       = (Ok (Category._id only), w)).
Proof.
  unfold _get_category_id, resolves. split_and!.
  - intros Hnone. by rewrite filter_none.
  - intros before first between second after -> Hbefore Hfirst Hsecond.
    rewrite filter_app, (filter_none _ before) by done. simpl.
    rewrite filter_cons_True by done.
    rewrite filter_app, (filter_cons_True _ second) by done.
    destruct (filter _ between) as [|b bs]; simpl;
      (eexists; split; [|reflexivity]; simpl; lia).
  - intros before only after -> Hothers Honly.
    rewrite filter_app, (filter_none _ before).
    2:{ intros c Hc. apply Hothers, elem_of_app. by left. }
    simpl. rewrite filter_cons_True by done.
    rewrite (filter_none _ after).
    2:{ intros c Hc. apply Hothers, elem_of_app. by right. }
    by destruct w.
Qed.

Lemma get_category_id_resolution_witness :
  _get_category_id Examples.mover (CStr "Boooks") (CStr "expense")
    (Examples.console [])
  = (Raise (ValueError "No matching category found for Boooks"),
     Examples.console [])
  ∧ ∃ n : nat,
      (2 ≤ n)%nat
      ∧ _get_category_id Examples.mover (CStr "Others") (CStr "expense")
          (Examples.console [])
        = (Ok (CStr "c6"),
           mk_world [] [pretty n +:+ " id matches for the  name Others."] []
             []).
Proof.
  split.
  - apply (get_category_id_resolution Examples.mover (CStr "Boooks")
             (CStr "expense") (Examples.console [])).
    intros c Hc (_ & Hname & _). revert Hname.
    repeat (apply elem_of_cons in Hc as [->|Hc]; [by vm_compute|]).
    by apply elem_of_nil in Hc.
  - destruct (get_category_id_resolution Examples.mover (CStr "Others")
                (CStr "expense") (Examples.console [])) as (_ & Hmany & _).
    apply (Hmany (take 5 Examples.categories)
             (Examples.category "expense" "Others" (CStr "c6") CNaN) []
             (Examples.category "expense" "Others" (CStr "c7") CNaN)
             (drop 7 Examples.categories)).
    + reflexivity.
    + intros c Hc (_ & Hname & _). revert Hname. simpl in Hc.
      repeat (apply elem_of_cons in Hc as [->|Hc]; [by vm_compute|]).
      by apply elem_of_nil in Hc.
    + by vm_compute.
    + by vm_compute.
Defined.

Example get_category_id_ambiguous :
  _get_category_id Examples.mover (CStr "Others") (CStr "expense")
    (Examples.console [])
  = (Ok (CStr "c6"),
     mk_world [] ["2 id matches for the  name Others."] [] []).
Proof. vm_compute. reflexivity. Qed.

End ResolutionProofs.

(** ** The transfer passes *)

Section TransferProofs.
Import MoneyLoverClient MoneyLoverClientOps MoneyMover TransferSpec.

Lemma for_each_app {A} (body : A → M unit) (xs ys : list A) w :
  for_each body (xs ++ ys)%list w
  = match for_each body xs w with
    | (Ok _, w') => for_each body ys w'
    | (Raise e, w') => (Raise e, w')
    end.
Proof.
  revert w. induction xs as [|x xs IH]; intros w; simpl; [done|].
  unfold bind. destruct (body x w) as [[[]|e] w1]; [apply IH|done].
Qed.

(** A row whose category the table does not have: the payload is not
    built, [ValueError] reaches the caller, and nothing is printed: the
    [except KeyError] clause does not see a [ValueError]. *)
Lemma create_payload_from_preset_unresolved self row category category_type w :
  row !! "category_name" = Some category →
  row !! "type" = Some category_type →
  (∀ c, c ∈ categories_file self →
     ¬ resolves self category category_type c) →
  _create_payload_from_preset self row w
  = (Raise (ValueError ("No matching category found for " +:+ py_str category)),
     w).
Proof.
  intros Hc Ht Hnone.
  unfold _create_payload_from_preset, bind, try_except_KeyError, lift, getitem.
  rewrite Hc, Ht.
  destruct (get_category_id_resolution self category category_type w)
    as (Hzero & _). by rewrite (Hzero Hnone).
Qed.

(** The automatic pass stops at such a row: the rows before it are
    submitted, the rows after it are not looked at. *)
Lemma transfer_from_presets_aborts self before idx row after
    category category_type w w1 :
  _transfer_from_presets self before w = (Ok tt, w1) →
  row !! "category_name" = Some category →
  row !! "type" = Some category_type →
  (∀ c, c ∈ categories_file self →
     ¬ resolves self category category_type c) →
  _transfer_from_presets self (before ++ (idx, row) :: after)%list w
  = (Raise (ValueError ("No matching category found for " +:+ py_str category)),
     w1).
Proof.
  intros Hbefore Hc Ht Hnone. unfold _transfer_from_presets in *.
  rewrite for_each_app, Hbefore. simpl. unfold bind.
  by rewrite (create_payload_from_preset_unresolved _ _ _ _ _ Hc Ht Hnone).
Qed.

(** C6, at the failing input.  A batch of three labelled rows whose
    second row names the category [Boooks], which the wallet does not have:
    the first row is submitted and reported, [ValueError] reaches the
    caller, the third row is not attempted, and the only line printed is
    the report of the first row: the category name is not printed. *)
Theorem transfer_from_presets_unknown_category :
  _transfer_from_presets Examples.mover Examples.batch_with_unknown_category
    (Examples.console [])
  = (Raise (ValueError "No matching category found for Boooks"),
     mk_world []
       ["Row 0: Groceries:  -12.5 - Added to Moneylover"]
       [mk_transaction_data "W1" (CStr "c1") (CFloat (-1250))
          (CStr "Groceries") "2024-03-05"]
       []).
Proof. vm_compute. reflexivity. Qed.

(** Category-id resolution reads no line and sends no request. *)
Lemma get_category_id_world self category_name category_type w res w' :
  _get_category_id self category_name category_type w = (res, w') →
  stdin w' = stdin w ∧ requests w' = requests w.
Proof.
  unfold _get_category_id. destruct (filter _ _) as [|first [|second others]].
  - by intros [= <- <-].
  - by intros [= <- <-].
  - by intros [= <- <-].
Qed.

(** C8.  A transaction resolved by manual entry: the type prompt gives a
    type, the category prompt a category, resolution an id, and the next
    line typed is the note.  Then [_fill_manually] sends exactly one
    request, made of the active wallet id, the resolved category id, the
    amount cell of the bank transaction unchanged, the note as typed, and
    the date of the bank transaction written as year-month-day; its result
    is the answer of the service to that request. *)
Theorem fill_manually_sends_resolved self id_num bank_transaction w
    transaction_type lines category note rest category_id w_resolved amount date :
  UserPrompts.choose_transaction_type (stdin w)
  = (Ok (Some transaction_type), lines) →
  UserPromptsCategory.choose_category
    (filter (λ c, Category.type c = transaction_type) (wallet_categories self))
    lines
  = (Ok (Some category), note :: rest) →
  _get_category_id self (CStr category) (CStr transaction_type)
    (mk_world (note :: rest) (stdout w) (requests w) (queries w))
  = (Ok category_id, w_resolved) →
  bank_transaction !! "amount" = Some amount →
  bank_transaction !! "date" = Some (CDate date) →
  ∃ res w',
    _fill_manually self id_num bank_transaction w = (res, w')
    ∧ requests w'
      = (requests w
         ++ [mk_transaction_data (active_wallet_id self) category_id amount
               (CStr note) (Datetime.strftime date)])%list
    ∧ res = service self
              (mk_transaction_data (active_wallet_id self) category_id amount
                 (CStr note) (Datetime.strftime date))
    ∧ stdin w' = rest.
Proof.
  intros Htype Hcategory Hid Hamount Hdate.
  pose proof (get_category_id_world _ _ _ _ _ _ Hid) as [Hin Hreq].
  simpl in Hin, Hreq.
  unfold _fill_manually, bind, prompt, input.
  rewrite Htype. cbn [stdin stdout requests queries]. cbv beta iota zeta.
  rewrite Hcategory. cbn [stdin stdout requests queries]. cbv beta iota zeta.
  rewrite Hid. cbv beta iota zeta.
  destruct w_resolved as [lines_left printed sent asked]. simpl in Hin, Hreq.
  subst lines_left sent.
  unfold prompt, lift, _create_payload, getitem. rewrite Hamount, Hdate.
  unfold add_payload, add_transaction, bind, lift, _post_request, print.
  cbn [result_bind payload_wallet_id payload_category_id payload_amount
       payload_note payload_date stdin stdout requests queries].
  destruct (service self _) as [[]|e] eqn:Hservice.
  - do 2 eexists. by split.
  - do 2 eexists. by split.
Qed.

Lemma fill_manually_sends_resolved_witness :
  ∃ res w',
    _fill_manually Examples.mover 2 Examples.bookshop
      (Examples.console ["e"; "0"; "1"; "a novel"; "left"]) = (res, w')
    ∧ requests w'
      = [mk_transaction_data "W1" (CStr "c4") (CFloat (-1999))
           (CStr "a novel") "2024-03-07"]
    ∧ res = Ok tt
    ∧ stdin w' = ["left"].
Proof.
  apply (fill_manually_sends_resolved Examples.mover 2 Examples.bookshop
           (Examples.console ["e"; "0"; "1"; "a novel"; "left"])
           "expense" ["0"; "1"; "a novel"; "left"] "Restaurants" "a novel"
           ["left"] (CStr "c4")
           (mk_world ["a novel"; "left"] [] [] []) (CFloat (-1999))
           (Datetime.mk_datetime 2024 3 7));
    vm_compute; reflexivity.
Defined.

(** *** Rules for [sends] *)






Lemma sends_weaken {A} (m : M A) (P Q : result A → _ → Prop) :
  sends m P → (∀ res n, P res n → Q res n) → sends m Q.
Proof.
  intros Hm HPQ w res w' Hrun. destruct (Hm _ _ _ Hrun) as (n & ? & ?).
  exists n. split; [done|]. by apply HPQ.
Qed.


(** *** The automatic pass *)





(** *** Manual entry *)



End TransferProofs.

(** ** Classification and the run *)

Section ClassificationProofs.
Import MoneyLoverClient MoneyLoverClientOps MoneyMover TransferSpec.
Variable re_match : string → string → bool.












End ClassificationProofs.

Section ClassificationExamples.
Import MoneyLoverClient MoneyMover TransferSpec.



(** A run at the console: [groceries] is flagged as in the ledger (the
    cross-row match) although a preset matches it; [salary] is added from
    its preset; [bookshop] is entered by hand. *)
Example transfer_bank_transactions_at_console :
  transfer_bank_transactions Examples.literal_match Examples.mover
    Examples.statement
    (Examples.console ["y"; "y"; "e"; "0"; "1"; "a novel"])
  = (Ok (remaining Examples.classified),
     mk_world []
       [ "Row 1: Salary:  2500.0 - Added to Moneylover";
         "Transaction added" +:+ String (ascii_of_nat 10) EmptyString ]
       [ mk_transaction_data "W1" (CStr "c8") (CFloat 250000) (CStr "Salary")
           "2024-03-25";
         mk_transaction_data "W1" (CStr "c4") (CFloat (-1999)) (CStr "a novel")
           "2024-03-07" ]
       [ mk_list_request "2024-03-01" "2024-03-31" "W1" ])
  ∧ fst <$> remaining Examples.classified = [2%nat].
Proof.
  split; reflexivity.
Qed.

End ClassificationExamples.

(** ** String forms and the statement pattern, on examples *)

Section ValueExamples.
Import Datetime IngParser.

Example py_str_amounts :
  py_str (CFloat (-1250)) = "-12.5" ∧ py_str (CFloat 250000) = "2500.0"
  ∧ py_str (CFloat 1205) = "12.05" ∧ py_str (CFloat (-7)) = "-0.07".
Proof. vm_compute. by split_and!. Qed.

Example py_str_other_cells :
  py_str (CDate (mk_datetime 2024 3 5)) = "2024-03-05 00:00:00"
  ∧ py_str (CBool false) = "False" ∧ py_str CNaN = "nan"
  ∧ py_str (CInt 42) = "42".
Proof. vm_compute. by split_and!. Qed.

(** The first group is greedy: of two date pairs the last one is
    captured. *)
Example re_match_file_pattern_greedy :
  re_match_file_pattern "a_01-01-2023_31-01-2023_01-02-2024_29-02-2024.csv"
  = Some (mk_match "a_01-01-2023_31-01-2023_01-02-2024_29-02-2024.csv"
            "a_01-01-2023_31-01-2023" "01-02-2024" "29-02-2024").
Proof. vm_compute. reflexivity. Qed.

Example re_match_file_pattern_no_match :
  re_match_file_pattern "statement_2024-01-01_2024-01-31.csv" = None
  ∧ re_match_file_pattern "_01-01-2024_31-01-2024.csv" = None.
Proof. vm_compute. by split. Qed.

Example strptime_leap_day :
  strptime "29-02-2024" = Ok (mk_datetime 2024 2 29)
  ∧ strptime "29-02-2023" = Raise (ValueError "time data does not match format")
  ∧ strptime "01-01-0000" = Raise (ValueError "time data does not match format").
Proof. vm_compute. by split_and!. Qed.

End ValueExamples.

(** * Further properties *)

(** ** The statement selector: what else it does *)

Section SelectorExtras.
Import Datetime IngParser SelectorSpec.

Lemma strptime_Ok_or_ValueError s :
  (∃ d, strptime s = Ok d) ∨ (∃ msg, strptime s = Raise (ValueError msg)).
Proof.
  destruct (strptime s) as [d|e] eqn:H; [left; by eexists|right].
  apply strptime_raises in H as [msg ->]. by eexists.
Qed.

Lemma closest_loop_raises_ill_dated today file_match :
  ∀ st e, closest_loop today file_match st = Raise e →
          ∃ m, Some m ∈ file_match ∧ ¬ well_dated m.
Proof.
  induction file_match as [|[m|] rest IH]; intros st e; simpl; [done| |].
  - destruct (strptime (group_end m)) as [d_end|] eqn:He; simpl.
    + destruct (strptime (group_start m)) as [d_start|] eqn:Hs; simpl.
      * destruct (improves _ _); intros (m' & ? & ?)%IH; exists m';
          (split; [by right|done]).
      * intros _. exists m. split; [by left|].
        intros (s & e' & Hs' & _). congruence.
    + intros _. exists m. split; [by left|].
      intros (s & e' & _ & He'). congruence.
  - intros (m' & ? & ?)%IH. exists m'. split; [by right|done].
Qed.

Lemma closest_loop_ill_dated_raises today file_match :
  ∀ st, (∃ m, Some m ∈ file_match ∧ ¬ well_dated m) →
        ∃ msg, closest_loop today file_match st = Raise (ValueError msg).
Proof.
  induction file_match as [|[m|] rest IH]; intros st (m' & Hm' & Hill); simpl.
  - by apply elem_of_nil in Hm'.
  - destruct (strptime_Ok_or_ValueError (group_end m)) as [[d_end He]|[msg He]];
      rewrite He; simpl; [|by eexists].
    destruct (strptime_Ok_or_ValueError (group_start m))
      as [[d_start Hs]|[msg Hs]]; rewrite Hs; simpl; [|by eexists].
    apply elem_of_cons in Hm' as [[= <-]|Hm'].
    { destruct Hill. by exists d_start, d_end. }
    destruct (improves _ _); apply IH; by exists m'.
  - apply elem_of_cons in Hm' as [[=]|Hm']. apply IH. by exists m'.
Qed.

(** X1.  The selector raises [ValueError] exactly when some file name of
    the folder matches the statement pattern with a start or end date that
    is not a calendar date. *)
Theorem find_statement_ValueError_iff today csv_files :
  (∃ msg, _find_statement today csv_files = Raise (ValueError msg))
  ↔ ∃ f m, f ∈ csv_files ∧ re_match_file_pattern f = Some m ∧ ¬ well_dated m.
Proof.
  unfold _find_statement, _find_closest_end_date_file. split.
  - intros [msg Hraise].
    destruct (closest_loop today (re_match_file_pattern <$> csv_files)
                initial_state) as [st|e] eqn:Hloop; simpl in Hraise.
    + by destruct (recent_file st).
    + apply closest_loop_raises_ill_dated in Hloop as (m & Hm & Hill).
      apply list_elem_of_fmap in Hm as (f & Hf & Hin). by exists f, m.
  - intros (f & m & Hin & Hf & Hill).
    destruct (closest_loop_ill_dated_raises today
                (re_match_file_pattern <$> csv_files) initial_state)
      as [msg Hloop].
    { exists m. split; [|done]. apply list_elem_of_fmap. by exists f. }
    exists msg. by rewrite Hloop.
Qed.

Lemma closest_loop_skips_unmatched today csv_files :
  ∀ st,
    closest_loop today (re_match_file_pattern <$> csv_files) st
    = closest_loop today
        (re_match_file_pattern
           <$> filter (λ f, is_Some (re_match_file_pattern f)) csv_files) st.
Proof.
  induction csv_files as [|f rest IH]; intros st; [done|].
  rewrite filter_cons. destruct (decide (is_Some (re_match_file_pattern f)))
    as [[m Hm]|Hnone].
  - rewrite !fmap_cons, Hm. simpl.
    destruct (strptime (group_end m)); simpl; [|done].
    destruct (strptime (group_start m)); simpl; [|done].
    destruct (improves _ _); apply IH.
  - rewrite fmap_cons.
    destruct (re_match_file_pattern f) as [m|] eqn:Hm.
    { destruct Hnone. by eexists. }
    simpl. apply IH.
Qed.

(** X2.  Files of the folder whose names do not match the statement
    pattern have no influence: the selector gives the same result, or
    raises the same exception, as on the matching names alone. *)
Theorem find_statement_ignores_unmatched today csv_files :
  _find_statement today csv_files
  = _find_statement today
      (filter (λ f, is_Some (re_match_file_pattern f)) csv_files).
Proof.
  unfold _find_statement, _find_closest_end_date_file.
  by rewrite closest_loop_skips_unmatched.
Qed.

(** X3.  When the candidates have pairwise different end dates, the file
    returned and the date range recorded do not depend on the order in
    which the folder lists them. *)
Theorem find_closest_end_date_file_order today file_match file_match' :
  well_dated_all file_match → (∃ m, Some m ∈ file_match) →
  (∀ m m' e e',
     Some m ∈ file_match → Some m' ∈ file_match →
     strptime (group_end m) = Ok e → strptime (group_end m') = Ok e' →
     toordinal e = toordinal e' → m = m') →
  file_match ≡ₚ file_match' →
  _find_closest_end_date_file today file_match'
  = _find_closest_end_date_file today file_match.
Proof.
  intros Hwd [m0 Hm0] Hdistinct Hperm.
  assert (well_dated_all file_match') as Hwd'.
  { unfold well_dated_all. by rewrite <- Hperm. }
  destruct (find_closest_end_date_file_selected today file_match Hwd)
    as (i & m & s & e & Hi & Hs & He & Hres & Hmin); [by exists m0|].
  destruct (find_closest_end_date_file_selected today file_match' Hwd')
    as (i' & m' & s' & e' & Hi' & Hs' & He' & Hres' & Hmin').
  { exists m0. by rewrite <- Hperm. }
  assert (Some m' ∈ file_match) as Hin'.
  { rewrite Hperm. by eapply list_elem_of_lookup_2. }
  assert (Some m ∈ file_match) as Hin by by eapply list_elem_of_lookup_2.
  assert (m = m') as <-.
  { apply (Hdistinct m m' e e' Hin Hin' He He').
    apply list_elem_of_lookup in Hin' as [j Hj].
    destruct (Hmin j m' e' Hj He') as [Hle _].
    assert (Some m ∈ file_match') as Hin2 by by rewrite <- Hperm.
    apply list_elem_of_lookup in Hin2 as [j' Hj'].
    destruct (Hmin' j' m e Hj' He) as [Hle' _].
    unfold days_between in *. lia. }
  rewrite Hres, Hres'. congruence.
Qed.

Lemma find_closest_end_date_file_order_witness :
  _find_closest_end_date_file SelectorExamples.a_day_in_april
    [Some OrderExamples.ends_in_december; Some OrderExamples.ended_yesterday]
  = _find_closest_end_date_file SelectorExamples.a_day_in_april
      [Some OrderExamples.ended_yesterday; Some OrderExamples.ends_in_december].
Proof.
  apply find_closest_end_date_file_order.
  - repeat constructor; do 2 eexists; split; reflexivity.
  - eexists. left.
  - intros m m' e e' Hm Hm' He He' Hord.
    apply elem_of_cons in Hm as [[= ->]|Hm];
      [|apply list_elem_of_singleton in Hm as [= ->]];
      (apply elem_of_cons in Hm' as [[= ->]|Hm'];
       [|apply list_elem_of_singleton in Hm' as [= ->]]);
      try reflexivity;
      vm_compute in He; vm_compute in He';
      injection He as <-; injection He' as <-;
      vm_compute in Hord; discriminate Hord.
  - apply Permutation_swap.
Defined.

Example matches_of_the_two_statements :
  re_match_file_pattern SelectorExamples.ended_yesterday
  = Some OrderExamples.ended_yesterday
  ∧ re_match_file_pattern SelectorExamples.ends_in_december
    = Some OrderExamples.ends_in_december.
Proof. split; vm_compute; reflexivity. Qed.

End SelectorExtras.

(** ** The category tree: what else it does *)

Section CategoryExtras.
Import CategorySelector CategorySpec CategoryTreeSpec.

Lemma stops_at_cons line stdin e rest :
  stops_at stdin e rest → stops_at (line :: stdin) e rest.
Proof.
  intros [?|(read & line' & -> & ?)]; [by left|right].
  by exists (line :: read), line'.
Qed.

Lemma stops_at_app (read : list string) stdin e rest :
  stops_at stdin e rest → stops_at (read ++ stdin) e rest.
Proof.
  induction read as [|line read IH]; [done|]. intros Hstops.
  by apply stops_at_cons, IH.
Qed.

Lemma select_subcategory_raises subcategories stdin :
  ∀ self e self' rest,
    _select_subcategory self subcategories stdin = (Raise e, self', rest) →
    stops_at stdin e rest.
Proof.
  induction stdin as [|user_input stdin IH]; intros self e self' rest; simpl.
  - intros [= <- _ <-]. by left.
  - destruct (isdigit user_input) eqn:Hdigit.
    + destruct (int user_input) as [selected_index|e0] eqn:Hint.
      * destruct (subcategories !! Z.to_nat selected_index); [done|].
        intros Hrec. by eapply stops_at_cons, IH.
      * intros [= <- _ <-]. right. by exists [], user_input.
    + case_bool_decide; [done|]. case_bool_decide; [done|].
      intros Hrec. by eapply stops_at_cons, IH.
Qed.

Lemma select_subcategory_suffix subcategories stdin :
  ∀ self res self' rest,
    _select_subcategory self subcategories stdin = (res, self', rest) →
    ∃ read : list string, stdin = (read ++ rest)%list.
Proof.
  induction stdin as [|user_input stdin IH]; intros self res self' rest; simpl.
  - intros [= _ _ <-]. by exists [].
  - assert (_select_subcategory self subcategories stdin = (res, self', rest)
            → ∃ read : list string,
                user_input :: stdin = (read ++ rest)%list) as Hrec.
    { intros (read & ->)%IH. by exists (user_input :: read). }
    assert (∀ (r : result (option string)) (self0 : t),
              (r, self0, stdin) = (res, self', rest)
              → ∃ read : list string,
                  user_input :: stdin = (read ++ rest)%list) as Hhere.
    { intros r self0 [= _ _ <-]. by exists [user_input]. }
    destruct (isdigit user_input).
    + destruct (int user_input) as [selected_index|e0]; [|apply Hhere].
      destruct (subcategories !! Z.to_nat selected_index);
        [apply Hhere|apply Hrec].
    + case_bool_decide; [apply Hhere|].
      case_bool_decide; [apply Hhere|apply Hrec].
Qed.

Lemma get_children_Ok self p :
  p ∈ categories self → ∃ subs, _get_children self (Category.name p) = Ok subs.
Proof.
  intros Hp. unfold _get_children.
  destruct (filter _ (categories self)) as [|q rest] eqn:Hfilter; [|by eexists].
  assert (p ∈ @nil Category.t) as Hin; [|by apply elem_of_nil in Hin].
  rewrite <- Hfilter. by apply list_elem_of_filter.
Qed.

Lemma category_selected_raises self stdin e self' rest :
  _category_selected self stdin = (Raise e, self', rest) →
  stops_at stdin e rest.
Proof.
  destruct stdin as [|user_input stdin]; simpl.
  { intros [= <- _ <-]. by left. }
  destruct (isdigit user_input) eqn:Hdigit.
  - destruct (int user_input) as [selected_index|e0] eqn:Hint.
    2:{ intros [= <- _ <-]. right. by exists [], user_input. }
    destruct (parent_categories self !! Z.to_nat selected_index)
      as [[p n]|] eqn:Hp; [|done].
    destruct (get_children_Ok (set_selected self (Some (Category.name p))) p)
      as [subs Hsubs].
    { by eapply (parent_categories_elem self). }
    rewrite Hsubs. destruct subs as [|sub subs]; [done|].
    destruct (_select_subcategory _ (sub :: subs) stdin)
      as [[[r|e'] self0] rest0] eqn:Hsel; [done|].
    apply select_subcategory_raises in Hsel. intros [= <- _ <-].
    by apply stops_at_cons.
  - by case_bool_decide.
Qed.

Lemma category_selected_suffix self stdin res self' rest :
  _category_selected self stdin = (res, self', rest) →
  ∃ read : list string, stdin = (read ++ rest)%list.
Proof.
  destruct stdin as [|user_input stdin]; simpl.
  { intros [= _ _ <-]. by exists []. }
  assert (∀ (r : result bool) (self0 : t),
            (r, self0, stdin) = (res, self', rest)
            → ∃ read : list string,
                user_input :: stdin = (read ++ rest)%list) as Hhere.
  { intros r self0 [= _ _ <-]. by exists [user_input]. }
  destruct (isdigit user_input).
  - destruct (int user_input) as [selected_index|e0]; [|apply Hhere].
    destruct (parent_categories self !! Z.to_nat selected_index)
      as [[p n]|]; [|apply Hhere].
    destruct (_get_children _ _) as [[|sub subs]|e]; [apply Hhere| |apply Hhere].
    destruct (_select_subcategory _ (sub :: subs) stdin)
      as [[r self0] rest0] eqn:Hsel.
    apply select_subcategory_suffix in Hsel as [read ->].
    destruct r; intros [= _ _ <-]; by exists (user_input :: read).
  - case_bool_decide; apply Hhere.
Qed.

(** X4.  The category selection can fail in two ways only: with
    [EOFError], once every line has been read, or with the [ValueError]
    of [int] on a line that [str.isdigit] accepts and [int] does not read
    (a line with a superscript digit, or one of more than 4300 digits),
    the lines after it being left unread.  Any other line that selects
    nothing is asked again. *)
Theorem run_raises_at_end_or_unreadable_digits cats stdin e rest :
  run (__init__ cats) stdin = (Raise e, rest) →
  (e = EOFError ∧ rest = [])
  ∨ ∃ (read : list string) line,
      stdin = (read ++ line :: rest)%list ∧ unreadable_digits line e.
Proof.
  unfold run. pose proof (init_listed_state cats) as Hst. revert Hst.
  generalize (__init__ cats) as self.
  assert (∀ fuel self stdin,
            listed_state cats self → (length stdin < fuel)%nat →
            run_loop fuel self stdin = (Raise e, rest) →
            stops_at stdin e rest) as Hloop.
  { induction fuel as [|fuel IH]; intros self stdin' Hst Hfuel; [lia|]. simpl.
    destruct (_category_selected self stdin') as [[res self'] rest'] eqn:Hround.
    destruct (category_selected_listed cats _ _ _ _ _ Hst Hround) as [Hst' Hlen].
    destruct res as [[|]|e'].
    - done.
    - specialize (Hlen false eq_refl).
      apply category_selected_suffix in Hround as [read ->].
      intros Hrec. apply stops_at_app. apply (IH self'); [done|lia|done].
    - intros [= <- <-]. by apply category_selected_raises in Hround. }
  intros self Hst Hrun.
  apply (Hloop (S (length stdin)) self); [done|lia|done].
Qed.

Lemma run_raises_at_end_or_unreadable_digits_witness :
  (ValueError PromptExamples.invalid_literal = EOFError ∧ ["1"] = [])
  ∨ ∃ (read : list string) line,
      ["x"; PromptExamples.squared; "1"] = (read ++ line :: ["1"])%list
      ∧ unreadable_digits line (ValueError PromptExamples.invalid_literal).
Proof.
  apply (run_raises_at_end_or_unreadable_digits Examples.categories
           ["x"; PromptExamples.squared; "1"]
           (ValueError PromptExamples.invalid_literal) ["1"]).
  reflexivity.
Defined.

End CategoryExtras.

Section CategoryExtras2.
Import CategorySelector CategorySpec CategoryTreeSpec.

(** The sub-category prompt leaves the table alone; what it selects is
    what was selected before or one of the names offered. *)
Lemma select_subcategory_inv (Φ : option string → Prop) subcategories stdin :
  ∀ self res self' rest,
    Φ (selected_category self) →
    (∀ n, n ∈ subcategories → Φ (Some n)) →
    _select_subcategory self subcategories stdin = (res, self', rest) →
    Φ (selected_category self') ∧ categories self' = categories self.
Proof.
  induction stdin as [|user_input stdin IH]; intros self res self' rest HΦ Hsubs;
    simpl.
  - by intros [= <- <- <-].
  - destruct (isdigit user_input).
    + destruct (int user_input) as [selected_index|e];
        [|by intros [= <- <- <-]].
      destruct (subcategories !! Z.to_nat selected_index) as [sub|] eqn:Hsub.
      * intros [= <- <- <-]. split; [|done]. apply Hsubs.
        by eapply list_elem_of_lookup_2.
      * by apply IH.
    + case_bool_decide; [by intros [= <- <- <-]|].
      case_bool_decide; [by intros [= <- <- <-]|]. by apply IH.
Qed.

Lemma category_selected_inv (Φ : option string → Prop) self stdin res self' rest :
  Φ None →
  (∀ (k : nat) p n, parent_categories self !! k = Some (p, n) →
     Φ (Some (Category.name p))
     ∧ ∀ subs sub, _get_children self (Category.name p) = Ok subs →
                   sub ∈ subs → Φ (Some sub)) →
  Φ (selected_category self) →
  _category_selected self stdin = (res, self', rest) →
  Φ (selected_category self') ∧ categories self' = categories self.
Proof.
  intros Hnone Hparents HΦ. destruct stdin as [|user_input stdin]; simpl.
  - by intros [= <- <- <-].
  - destruct (isdigit user_input).
    + destruct (int user_input) as [selected_index|e0];
        [|by intros [= <- <- <-]].
      destruct (parent_categories self !! Z.to_nat selected_index)
        as [[p n]|] eqn:Hp; [|by intros [= <- <- <-]].
      destruct (Hparents _ _ _ Hp) as [Hname Hsubs].
      change (_get_children (set_selected self (Some (Category.name p)))
                (Category.name p))
        with (_get_children self (Category.name p)).
      destruct (_get_children self (Category.name p)) as [[|sub subs]|e]
        eqn:Hchildren.
      * by intros [= <- <- <-].
      * destruct (_select_subcategory _ (sub :: subs) stdin)
          as [[res0 self0] rest0] eqn:Hsel.
        apply (select_subcategory_inv Φ) in Hsel as [HΦ0 Hcats0];
          [|done|intros n0 Hn0; by eapply Hsubs].
        destruct res0; by intros [= <- <- <-].
      * by intros [= <- <- <-].
    + case_bool_decide; by intros [= <- <- <-].
Qed.

Lemma run_loop_inv (Φ : option string → Prop) cs fuel :
  Φ None →
  (∀ self, categories self = cs →
     ∀ (k : nat) p n, parent_categories self !! k = Some (p, n) →
       Φ (Some (Category.name p))
       ∧ ∀ subs sub, _get_children self (Category.name p) = Ok subs →
                     sub ∈ subs → Φ (Some sub)) →
  ∀ self stdin v rest,
    categories self = cs → Φ (selected_category self) →
    run_loop fuel self stdin = (Ok v, rest) → Φ v.
Proof.
  intros Hnone Hparents.
  induction fuel as [|fuel IH]; intros self stdin v rest Hcs HΦ; simpl; [done|].
  destruct (_category_selected self stdin) as [[res self'] rest'] eqn:Hround.
  apply (category_selected_inv Φ) in Hround as [HΦ' Hcs'];
    [|done|by apply Hparents|done].
  destruct res as [[|]|e]; [by intros [= <- <-]| |done].
  apply IH; [congruence|done].
Qed.

Lemma init_parent_kept cats (k : nat) p n self :
  categories self = categories (__init__ cats) →
  parent_categories self !! k = Some (p, n) →
  first_named cats (Category.name p) p ∧ isna (Category.parent p) = true.
Proof.
  intros Hcs Hp. unfold parent_categories, _count_subcategories in Hp.
  rewrite list_lookup_fmap in Hp.
  destruct (filter _ (categories self) !! k) as [q|] eqn:Hq; [|done].
  simpl in Hp. injection Hp as -> _.
  apply list_elem_of_lookup_2, list_elem_of_filter in Hq as [Hna Hq].
  split; [|done]. apply init_categories_elem. by rewrite <- Hcs.
Qed.

(** The children of a kept row, whatever is selected at the moment. *)
Lemma get_children_kept cats self p sub subs :
  categories self = categories (__init__ cats) →
  first_named cats (Category.name p) p →
  _get_children self (Category.name p) = Ok subs → sub ∈ subs →
  ∃ c, first_named cats (Category.name c) c
       ∧ Category.parent c = CStr (py_str (Category._id p))
       ∧ sub = Category.name c.
Proof.
  intros Hcs Hp. unfold _get_children. rewrite Hcs.
  destruct (filter _ (categories (__init__ cats))) as [|q rest] eqn:Hfilter;
    [done|].
  assert (q = p) as ->.
  { assert (q ∈ q :: rest) as Hq by left.
    rewrite <- Hfilter in Hq. apply list_elem_of_filter in Hq as [Hname Hq].
    apply init_categories_elem in Hq. rewrite Hname in Hq.
    by eapply first_named_unique. }
  intros [= <-] Hsub%drop_duplicates_subseteq.
  apply list_elem_of_fmap in Hsub as (c & -> & [Hpar Hc]%list_elem_of_filter).
  exists c. split_and!; [by apply init_categories_elem| |done].
  by apply cell_eq_str_true.
Qed.

(** X5.  The descent has two levels: what [run] returns is [None], the
    name of a top-level category (a kept row without a parent), or the name
    of a kept row whose parent is such a top-level category. *)
Theorem run_returns_two_level cats stdin v rest :
  run (__init__ cats) stdin = (Ok v, rest) → two_level cats v.
Proof.
  unfold run.
  apply (run_loop_inv (two_level cats) (categories (__init__ cats)));
    [by left| |done|by left].
  intros self Hcs k p n Hp.
  destruct (init_parent_kept cats k p n self Hcs Hp) as [Hkept Hna].
  split.
  - right. exists p. split_and!; [done|done|by left].
  - intros subs sub Hchildren Hsub.
    destruct (get_children_kept cats self p sub subs Hcs Hkept Hchildren Hsub)
      as (c & Hc & Hpar & ->).
    right. exists p. split_and!; [done|done|]. right. by exists c.
Qed.

Lemma run_returns_two_level_witness :
  two_level Examples.categories (Some "Restaurants").
Proof.
  apply (run_returns_two_level Examples.categories ["0"; "x"; "1"]
           (Some "Restaurants") []).
  vm_compute. reflexivity.
Defined.

End CategoryExtras2.
Section CategoryExtras3.
Import CategorySelector CategorySpec CategoryTreeSpec.

(** X6.  A line that selects nothing at the parent prompt (neither
    digits nor [s], or digits that [int] reads as a number that is no
    parent's index) is dropped: the selection goes on as if the line had
    not been typed. *)
Theorem run_rejected_line self line rest :
  rejected self line → run self (line :: rest) = run self rest.
Proof.
  unfold run. change (length (line :: rest)) with (S (length rest)).
  generalize (S (length rest)) as fuel. intros fuel Hrejected.
  change (run_loop (S fuel) self (line :: rest))
    with (match _category_selected self (line :: rest) with
          | (Ok true, self, rest) => (Ok (selected_category self), rest)
          | (Ok false, self, rest) => run_loop fuel self rest
          | (Raise e, _, rest) => (Raise e, rest)
          end).
  unfold _category_selected.
  destruct Hrejected as [[Hdigit Hs]|[Hdigit (selected_index & Hint & Hrange)]];
    rewrite Hdigit.
  - by rewrite bool_decide_eq_false_2.
  - by rewrite Hint, Hrange.
Qed.

Lemma run_rejected_line_witness :
  run (__init__ Examples.categories) ["Food"; "9"; "1"]
  = run (__init__ Examples.categories) ["9"; "1"].
Proof.
  apply run_rejected_line. left. split; [reflexivity|]. by vm_compute.
Defined.

Lemma run_loop_S fuel self stdin :
  run_loop (S fuel) self stdin
  = match _category_selected self stdin with
    | (Ok true, self, rest) => (Ok (selected_category self), rest)
    | (Ok false, self, rest) => run_loop fuel self rest
    | (Raise e, _, rest) => (Raise e, rest)
    end.
Proof. reflexivity. Qed.

(** What is selected when a round starts does not matter. *)
Lemma run_loop_selected fuel :
  ∀ self o stdin,
    run_loop fuel (set_selected self o) stdin = run_loop fuel self stdin.
Proof.
  induction fuel as [|fuel IH]; intros self o stdin; [done|].
  destruct stdin as [|user_input stdin]; [done|].
  simpl. change (parent_categories (set_selected self o))
    with (parent_categories self).
  destruct (isdigit user_input).
  - destruct (int user_input) as [selected_index|e]; [|done].
    destruct (parent_categories self !! Z.to_nat selected_index)
      as [[p n]|]; [done|]. apply IH.
  - case_bool_decide; [done|]. apply IH.
Qed.

Lemma lower_b_not_digit line : lower line = "b" → isdigit line = false.
Proof.
  destruct line as [|c [|c' line]]; [done| |done].
  destruct c as [[] [] [] [] [] [] [] []]; by vm_compute.
Qed.

(** X7.  Going back from the sub-category prompt starts over: after a
    parent with children and then [b], the selection behaves as a fresh one
    on the lines that follow. *)
Theorem run_back cats line selected_index back rest p n sub subs :
  isdigit line = true →
  int line = Ok selected_index →
  parent_categories (__init__ cats) !! Z.to_nat selected_index = Some (p, n) →
  _get_children (__init__ cats) (Category.name p) = Ok (sub :: subs) →
  lower back = "b" →
  run (__init__ cats) (line :: back :: rest) = run (__init__ cats) rest.
Proof.
  intros Hdigit Hint Hp Hchildren Hback. unfold run.
  change (length (line :: back :: rest)) with (S (S (length rest))).
  rewrite (run_loop_S (S (S (length rest)))).
  assert (_category_selected (__init__ cats) (line :: back :: rest)
          = (Ok false,
             set_selected (__init__ cats) (Some (Category.name p)), rest))
    as ->.
  { unfold _category_selected. rewrite Hdigit, Hint, Hp.
    change (_get_children
              (set_selected (__init__ cats) (Some (Category.name p)))
              (Category.name p))
      with (_get_children (__init__ cats) (Category.name p)).
    rewrite Hchildren. simpl.
    rewrite (lower_b_not_digit _ Hback).
    by rewrite bool_decide_eq_true_2. }
  rewrite run_loop_selected.
  apply (run_loop_fuel cats); [apply init_listed_state|lia..].
Qed.

Lemma run_back_witness :
  run (__init__ Examples.categories) ["0"; "B"; "1"]
  = run (__init__ Examples.categories) ["1"].
Proof.
  apply (run_back Examples.categories "0" 0 "B" ["1"]
           (Examples.category "expense" "Food" (CStr "c1") CNaN) 2
           "Snacks" ["Restaurants"]); reflexivity.
Defined.

End CategoryExtras3.
Section CategoryExtras4.
Import CategorySelector CategorySpec CategoryTreeSpec.

Lemma drop_duplicates_seen_NoDup_id (seen names : list string) :
  NoDup names → (∀ n, n ∈ names → n ∉ seen) →
  drop_duplicates_seen id seen names = names.
Proof.
  revert seen. induction names as [|n names IH]; intros seen Hnodup Hfresh;
    [done|].
  apply NoDup_cons in Hnodup as [Hn Hnodup]. simpl.
  rewrite bool_decide_eq_false_2 by (apply Hfresh; by left).
  f_equal. apply IH; [done|]. intros m Hm.
  apply not_elem_of_cons. split.
  - unfold id. intros ->. done.
  - apply Hfresh. by right.
Qed.

Lemma NoDup_fmap_filter {A B} (f : A → B) (P : A → Prop)
    `{∀ x, Decision (P x)} (l : list A) :
  NoDup (f <$> l) → NoDup (f <$> filter P l).
Proof.
  intros Hnodup.
  apply (sublist_NoDup (f <$> filter P l) (f <$> l)); [done|].
  apply fmap_sublist, sublist_filter.
Qed.

Lemma NoDup_fmap_eq {A B} (f : A → B) (l : list A) x y :
  NoDup (f <$> l) → x ∈ l → y ∈ l → f x = f y → x = y.
Proof.
  induction l as [|a l IH]; simpl; [by intros _ ?%elem_of_nil|].
  intros [Ha Hnodup]%NoDup_cons [->|Hx]%elem_of_cons [->|Hy]%elem_of_cons Heq.
  - done.
  - destruct Ha. rewrite Heq. apply list_elem_of_fmap. by exists y.
  - destruct Ha. rewrite <- Heq. apply list_elem_of_fmap. by exists x.
  - by apply IH.
Qed.

(** X8.  For a parent whose id is a string, the number shown beside it in
    the parents table is the number of children the sub-category prompt
    offers. *)
Theorem count_is_number_of_children cats (k : nat) p n s :
  parent_categories (__init__ cats) !! k = Some (p, n) →
  Category._id p = CStr s →
  ∃ children,
    _get_children (__init__ cats) (Category.name p) = Ok children
    ∧ length children = n.
Proof.
  intros Hp Hid.
  pose proof (drop_duplicates_NoDup Category.name cats) as Hnodup.
  pose proof (parent_categories_elem _ _ _ _ Hp) as Hin.
  unfold parent_categories, _count_subcategories in Hp.
  rewrite list_lookup_fmap in Hp.
  destruct (filter _ (categories (__init__ cats)) !! k) as [q|] eqn:Hq;
    [|done].
  simpl in Hp. injection Hp as -> <-.
  unfold _get_children.
  destruct (filter (λ c, Category.name c = Category.name p)
              (categories (__init__ cats))) as [|q rest] eqn:Hfilter.
  { assert (p ∈ @nil Category.t) as Hnil; [|by apply elem_of_nil in Hnil].
    rewrite <- Hfilter. by apply list_elem_of_filter. }
  assert (q = p) as ->.
  { assert (q ∈ q :: rest) as Hq' by left.
    rewrite <- Hfilter in Hq'. apply list_elem_of_filter in Hq' as [Hname Hq'].
    by apply (NoDup_fmap_eq Category.name (categories (__init__ cats))). }
  eexists. split; [done|].
  unfold drop_duplicates.
  rewrite drop_duplicates_seen_NoDup_id.
  - rewrite length_fmap. f_equal. apply list_filter_iff. intros c.
    rewrite Hid. simpl. rewrite cell_eq_str_true. split.
    + intros ->. by split.
    + by intros [_ ?].
  - by apply NoDup_fmap_filter.
  - intros ? _ ?%elem_of_nil. done.
Qed.

Lemma count_is_number_of_children_witness :
  ∃ children,
    _get_children (__init__ Examples.categories) "Food" = Ok children
    ∧ length children = 2%nat.
Proof.
  apply (count_is_number_of_children Examples.categories 0
           (Examples.category "expense" "Food" (CStr "c1") CNaN) 2 "c1");
    vm_compute; reflexivity.
Defined.

End CategoryExtras4.

(** ** The prompts *)

Section PromptExtras.
Import UserPrompts WalletPrompt PromptSpec.

Lemma transaction_types_lookup line t :
  TRANSACTION_TYPES !! line = Some t →
  (line = "d" ∧ t = "debt/loan") ∨ (line = "i" ∧ t = "income")
  ∨ (line = "e" ∧ t = "expense").
Proof.
  unfold TRANSACTION_TYPES.
  intros [[<- <-]|[_ [[<- <-]|[_ [<- <-]%lookup_singleton_Some]]%lookup_insert_Some]]%lookup_insert_Some;
    auto.
Qed.

(** X9.  Whenever the type prompt returns, it has dropped every line it
    did not understand and answers the first line it does: [None] for [s],
    and for [d], [i], [e] the type [debt/loan], [income], [expense]; it
    returns no other value. *)
Theorem choose_transaction_type_first_answer stdin v rest :
  choose_transaction_type stdin = (Ok v, rest) →
  ∃ (skipped : list string) line,
    stdin = (skipped ++ line :: rest)%list
    ∧ Forall not_a_type skipped
    ∧ ((line = "s" ∧ v = None)
       ∨ (line = "d" ∧ v = Some "debt/loan")
       ∨ (line = "i" ∧ v = Some "income")
       ∨ (line = "e" ∧ v = Some "expense")).
Proof.
  induction stdin as [|user_input stdin IH]; simpl; [done|].
  case_bool_decide as Hs.
  - intros [= <- <-]. exists [], user_input. split_and!; [done|constructor|].
    by left.
  - destruct (TRANSACTION_TYPES !! user_input) as [t|] eqn:Ht.
    + intros [= <- <-]. exists [], user_input.
      split_and!; [done|constructor|]. right.
      apply transaction_types_lookup in Ht as [[-> ->]|[[-> ->]|[-> ->]]]; auto.
    + intros (skipped & line & -> & Hskipped & Hline)%IH.
      exists (user_input :: skipped), line.
      split_and!; [done|by constructor|done].
Qed.

Lemma choose_transaction_type_first_answer_witness :
  ∃ (skipped : list string) line,
    ["x"; "income"; "i"; "e"] = (skipped ++ line :: ["e"])%list
    ∧ Forall not_a_type skipped
    ∧ ((line = "s" ∧ Some "income" = None)
       ∨ (line = "d" ∧ Some "income" = Some "debt/loan")
       ∨ (line = "i" ∧ Some "income" = Some "income")
       ∨ (line = "e" ∧ Some "income" = Some "expense")).
Proof.
  apply (choose_transaction_type_first_answer ["x"; "income"; "i"; "e"]
           (Some "income") ["e"]).
  vm_compute. reflexivity.
Defined.






(** The fraction one half at the wallet prompt: [str.isnumeric] accepts
    it and [int] raises. *)
Example choose_wallet_one_half :
  choose_wallet MoreExamples.wallets [PromptExamples.one_half; "1"]
  = (Raise (ValueError PromptExamples.invalid_literal_half), ["1"]).
Proof. reflexivity. Qed.

End PromptExtras.

(** ** Loading the presets *)

Section SetupExtras.
Import MoneyMover MoneyMoverSetup.
Variable re_match : string → string → bool.

Lemma matched_preset_app bank_transaction (first second : list Preset) :
  matched_preset re_match bank_transaction (first ++ second)
  = match matched_preset re_match bank_transaction first with
    | Some preset => Some preset
    | None => matched_preset re_match bank_transaction second
    end.
Proof.
  induction first as [|preset first IH]; simpl; [done|].
  by destruct (_is_preset_matched re_match bank_transaction preset).
Qed.

(** X11.  With the default keys the presets are loaded in the order
    expenses, incomes, a missing key counting as no preset; so for every
    transaction an expenses preset that matches wins, and the incomes
    presets are consulted only if no expenses preset matches. *)
Theorem load_presets_expenses_first raw_presets presets bank_transaction :
  _load_presets (Some raw_presets) None = Ok presets →
  presets = (default [] (raw_presets !! "expenses")
             ++ default [] (raw_presets !! "incomes"))%list
  ∧ matched_preset re_match bank_transaction presets
    = match matched_preset re_match bank_transaction
              (default [] (raw_presets !! "expenses")) with
      | Some preset => Some preset
      | None => matched_preset re_match bank_transaction
                  (default [] (raw_presets !! "incomes"))
      end.
Proof.
  unfold _load_presets. simpl. intros [= <-].
  assert (match raw_presets !! "incomes" with
          | Some listed =>
              (match raw_presets !! "expenses" with
               | Some listed0 => listed0
               | None => []
               end ++ listed)%list
          | None => match raw_presets !! "expenses" with
                    | Some listed => listed
                    | None => []
                    end
          end
          = (default [] (raw_presets !! "expenses")
             ++ default [] (raw_presets !! "incomes"))%list) as ->.
  { destruct (raw_presets !! "expenses"), (raw_presets !! "incomes"); simpl;
      by rewrite ?app_nil_r. }
  split; [done|]. apply matched_preset_app.
Qed.

End SetupExtras.

(** ** The two passes and the transfer *)

Section ClassificationExtras.
Import MoneyLoverClient MoneyLoverClientOps MoneyMover.
Import TransferSpec RunSpec.
Variable re_match : string → string → bool.

Lemma check_if_already_added_flag self bank_transactions df :
  _check_if_already_added self bank_transactions = Ok df →
  length df = length bank_transactions
  ∧ ∀ (i : nat) idx row,
      bank_transactions !! i = Some (idx, row) →
      df !! i = Some (idx, <["is_in_ml" := CBool (dedup_flag self row)]> row).
Proof.
  unfold _check_if_already_added, dedup_flag.
  destruct (ml_transactions self) as [|l0 ls] eqn:Hml.
  - intros [= <-]. split.
    + unfold set_column. rewrite length_zip_with_l_eq; [done|].
      by rewrite length_replicate.
    + intros i idx row Hrow.
      apply set_column_lookup; [done|]. apply lookup_replicate_2.
      by eapply lookup_lt_Some.
  - destruct (column bank_transactions "amount") as [amounts|] eqn:Ha;
      simpl; [|done].
    destruct (column bank_transactions "date") as [dates|] eqn:Hd;
      simpl; [|done].
    intros [= <-].
    apply column_lookup in Ha as [Hlena Ha].
    apply column_lookup in Hd as [Hlend Hd].
    split.
    + unfold set_column. rewrite length_zip_with_l_eq; [done|].
      rewrite length_fmap, length_zip_with_l_eq;
        rewrite !length_fmap; congruence.
    + intros i idx row Hrow.
      destruct (Ha i idx row Hrow) as (a & Hrowa & Hai).
      destruct (Hd i idx row Hrow) as (d & Hrowd & Hdi).
      rewrite Hrowa, Hrowd. apply set_column_lookup; [done|].
      rewrite list_lookup_fmap, lookup_zip_with, !list_lookup_fmap.
      by rewrite Hai, Hdi.
Qed.

Lemma check_if_already_added_Ok self bank_transactions :
  (ml_transactions self ≠ [] →
   Forall has_dedup_columns bank_transactions) →
  ∃ df, _check_if_already_added self bank_transactions = Ok df.
Proof.
  intros Hcols. unfold _check_if_already_added.
  destruct (ml_transactions self) as [|l0 ls]; [by eexists|].
  specialize (Hcols ltac:(done)).
  destruct (column_Ok bank_transactions "amount") as [amounts ->].
  { eapply Forall_impl; [exact Hcols|]. by intros ? [? _]. }
  destruct (column_Ok bank_transactions "date") as [dates ->].
  { eapply Forall_impl; [exact Hcols|]. by intros ? [_ ?]. }
  by eexists.
Qed.

Lemma check_if_already_added_has_columns self bank_transactions df :
  _check_if_already_added self bank_transactions = Ok df →
  ml_transactions self ≠ [] →
  Forall has_dedup_columns bank_transactions.
Proof.
  unfold _check_if_already_added.
  destruct (ml_transactions self) as [|l0 ls]; [done|].
  destruct (column bank_transactions "amount") as [amounts|] eqn:Ha;
    simpl; [|done].
  destruct (column bank_transactions "date") as [dates|] eqn:Hd;
    simpl; [|done].
  intros _ _. apply column_lookup in Ha as [_ Ha].
  apply column_lookup in Hd as [_ Hd].
  apply Forall_lookup. intros i [idx row] Hrow.
  unfold has_dedup_columns. simpl.
  destruct (Ha i idx row Hrow) as (a & Hrowa & _).
  destruct (Hd i idx row Hrow) as (d & Hrowd & _).
  rewrite Hrowa, Hrowd. by split.
Qed.

Lemma conditions_met_ext bank_transaction bank_transaction' conditions :
  (∀ column pattern, (column, pattern) ∈ conditions →
     bank_transaction !! column = bank_transaction' !! column) →
  conditions_met re_match bank_transaction conditions
  = conditions_met re_match bank_transaction' conditions.
Proof.
  induction conditions as [|[column substring] rest IH]; intros Hsame; [done|].
  simpl. unfold transaction_value.
  rewrite (Hsame column substring) by left.
  rewrite IH; [done|]. intros c p Hc. apply (Hsame c p). by right.
Qed.

Lemma matched_preset_ext bank_transaction bank_transaction' presets :
  (∀ preset column pattern,
     preset ∈ presets → (column, pattern) ∈ conditions preset →
     bank_transaction !! column = bank_transaction' !! column) →
  matched_preset re_match bank_transaction presets
  = matched_preset re_match bank_transaction' presets.
Proof.
  induction presets as [|preset rest IH]; intros Hsame; [done|].
  simpl. unfold _is_preset_matched.
  rewrite (conditions_met_ext bank_transaction bank_transaction').
  2:{ intros c p Hc. apply (Hsame preset c p); [by left|done]. }
  rewrite IH; [done|]. intros q c p Hq. apply (Hsame q c p). by right.
Qed.

Lemma labelled_row_lookup self row column :
  column ≠ "has_preset" → column ≠ "note" → column ≠ "category_name" →
  column ≠ "type" →
  labelled_row re_match self row !! column = row !! column.
Proof.
  intros ? ? ? ?. unfold labelled_row.
  destruct (matched_preset _ _ _) as [preset|].
  - unfold set_label. by rewrite !lookup_insert_ne by done.
  - by rewrite lookup_insert_ne by done.
Qed.

(** The preset pass changes nothing on a row it has already handled. *)
Lemma labelled_row_idempotent self row :
  conditions_on_statement_columns (transaction_presets self) →
  labelled_row re_match self (labelled_row re_match self row)
  = labelled_row re_match self row.
Proof.
  intros Hcols. unfold labelled_row at 1.
  assert (matched_preset re_match
            (<["has_preset" := CBool false]> (labelled_row re_match self row))
            (transaction_presets self)
          = matched_preset re_match (<["has_preset" := CBool false]> row)
              (transaction_presets self)) as ->.
  { apply matched_preset_ext. intros preset column pattern Hp Hc.
    destruct (Hcols preset column pattern Hp Hc) as (? & ? & ?).
    destruct (decide (column = "has_preset")) as [->|].
    - by rewrite !lookup_insert_eq.
    - rewrite !lookup_insert_ne by done. by apply labelled_row_lookup. }
  unfold labelled_row.
  destruct (matched_preset re_match (<["has_preset" := CBool false]> row)
              (transaction_presets self)) as [preset|].
  - apply map_eq. intros column. unfold set_label.
    rewrite !lookup_insert. by repeat case_decide.
  - by rewrite insert_insert_eq.
Qed.

Lemma compare_to_presets_labelled self df :
  _compare_to_presets re_match self df
  = (λ r : nat * Series, (r.1, labelled_row re_match self r.2)) <$> df.
Proof.
  unfold _compare_to_presets. rewrite <- list_fmap_compose.
  apply list_fmap_ext. intros i [idx row] _. simpl. unfold labelled_row.
  by destruct (matched_preset _ _ _).
Qed.

(** X12.  Classifying a statement that was already classified changes
    nothing, provided no preset has a condition on the columns [note],
    [category_name] or [type] that the preset pass itself writes: the
    report and the transfer that follows it see the same flags and
    labels. *)
Theorem classify_idempotent self bank_transactions tr_df :
  conditions_on_statement_columns (transaction_presets self) →
  classify re_match self bank_transactions = Ok tr_df →
  classify re_match self tr_df = Ok tr_df.
Proof.
  intros Hcols. unfold classify.
  destruct (_check_if_already_added self bank_transactions) as [df0|]
    eqn:Hcheck; simpl; [|done].
  intros [= <-]. rewrite compare_to_presets_labelled.
  pose proof (check_if_already_added_flag _ _ _ Hcheck) as [Hlen0 Hrows0].
  destruct (check_if_already_added_Ok self
              ((λ r : nat * Series, (r.1, labelled_row re_match self r.2))
                 <$> df0))
    as [df1 Hcheck1].
  { intros Hml.
    pose proof (check_if_already_added_has_columns _ _ _ Hcheck Hml) as Hhas.
    apply Forall_fmap, Forall_lookup. intros i [idx row0] Hrow0.
    unfold has_dedup_columns. simpl.
    rewrite !labelled_row_lookup by done.
    assert (i < length bank_transactions)%nat as Hi.
    { rewrite <- Hlen0. by eapply lookup_lt_Some. }
    apply lookup_lt_is_Some in Hi as [[idx' row] Hrow].
    rewrite (Hrows0 i idx' row Hrow) in Hrow0. injection Hrow0 as <- <-.
    rewrite !lookup_insert_ne by done.
    by apply (Forall_lookup_1 _ _ _ _ Hhas Hrow). }
  rewrite Hcheck1. simpl. f_equal.
  pose proof (check_if_already_added_flag _ _ _ Hcheck1) as [Hlen1 Hrows1].
  rewrite compare_to_presets_labelled.
  apply list_eq. intros i. rewrite !list_lookup_fmap.
  destruct (df0 !! i) as [[idx row0]|] eqn:Hrow0; simpl.
  - rewrite (Hrows1 i idx (labelled_row re_match self row0)).
    2:{ by rewrite list_lookup_fmap, Hrow0. }
    simpl. f_equal. f_equal.
    assert (i < length bank_transactions)%nat as Hi.
    { rewrite <- Hlen0. by eapply lookup_lt_Some. }
    apply lookup_lt_is_Some in Hi as [[idx' row] Hrow].
    rewrite (Hrows0 i idx' row Hrow) in Hrow0. injection Hrow0 as <- <-.
    rewrite insert_id.
    + by apply labelled_row_idempotent.
    + rewrite labelled_row_lookup by done. rewrite lookup_insert_eq.
      do 2 f_equal. unfold dedup_flag.
      rewrite !labelled_row_lookup by done.
      by rewrite !lookup_insert_ne by done.
  - apply lookup_ge_None in Hrow0.
    rewrite (proj2 (lookup_ge_None df1 i)); [done|].
    rewrite Hlen1, length_fmap. lia.
Qed.

Lemma classify_rows self bank_transactions tr_df :
  classify re_match self bank_transactions = Ok tr_df →
  tr_df = (λ r : nat * Series, (r.1, classified_row re_match self r.2))
            <$> bank_transactions.
Proof.
  unfold classify.
  destruct (_check_if_already_added self bank_transactions) as [df0|]
    eqn:Hcheck; simpl; [|done].
  intros [= <-]. rewrite compare_to_presets_labelled.
  pose proof (check_if_already_added_flag _ _ _ Hcheck) as [Hlen0 Hrows0].
  apply list_eq. intros i. rewrite !list_lookup_fmap.
  destruct (bank_transactions !! i) as [[idx row]|] eqn:Hrow; simpl.
  - by rewrite (Hrows0 i idx row Hrow).
  - apply lookup_ge_None in Hrow.
    rewrite (proj2 (lookup_ge_None df0 i)); [done|]. lia.
Qed.

Lemma flag_classified_is_in_ml self row :
  flag (classified_row re_match self row) "is_in_ml" = dedup_flag self row.
Proof.
  unfold flag, classified_row. rewrite labelled_row_lookup by done.
  by rewrite lookup_insert_eq.
Qed.

Lemma flag_classified_has_preset self row :
  flag (classified_row re_match self row) "has_preset"
  = match matched_preset re_match
            (<["has_preset" := CBool false]>
               (<["is_in_ml" := CBool (dedup_flag self row)]> row))
            (transaction_presets self) with
    | Some _ => true
    | None => false
    end.
Proof.
  unfold flag, classified_row, RunSpec.labelled_row.
  destruct (matched_preset _ _ _) as [preset|].
  - unfold set_label. rewrite !lookup_insert_ne by done.
    by rewrite lookup_insert_eq.
  - by rewrite lookup_insert_eq.
Qed.

Lemma classified_row_flags self row :
  ∃ is_in_ml has_preset,
    classified_row re_match self row !! "is_in_ml" = Some (CBool is_in_ml)
    ∧ classified_row re_match self row !! "has_preset"
      = Some (CBool has_preset).
Proof.
  unfold classified_row. rewrite labelled_row_lookup by done.
  rewrite lookup_insert_eq. eexists _. unfold RunSpec.labelled_row.
  destruct (matched_preset _ _ _) as [preset|].
  - unfold set_label. rewrite !lookup_insert_ne by done.
    rewrite lookup_insert_eq. by eexists.
  - rewrite lookup_insert_eq. by eexists.
Qed.

Lemma filter_fmap_iff {A B} (f : A → B) (P : B → Prop) (Q : A → Prop)
    `{∀ y, Decision (P y)} `{∀ x, Decision (Q x)} (l : list A) :
  (∀ x, P (f x) ↔ Q x) →
  filter P (f <$> l) = f <$> filter Q l.
Proof.
  intros HPQ. induction l as [|x l IH]; [done|].
  rewrite fmap_cons, !filter_cons.
  destruct (decide (P (f x))) as [HP|HP], (decide (Q x)) as [HQ|HQ].
  - by rewrite IH.
  - by apply HPQ in HP.
  - by apply HPQ in HQ.
  - done.
Qed.

Lemma bind_Ok {A B} (m : M A) (k : A → M B) w b w' :
  bind m k w = (Ok b, w') →
  ∃ a w1, m w = (Ok a, w1) ∧ k a w1 = (Ok b, w').
Proof.
  unfold bind. destruct (m w) as [[a|e] w1]; [|done]. by exists a, w1.
Qed.

(** The listing with which a run starts. *)
Lemma request_transactions_run self w :
  request_transactions self (date_range self) w
  = (match ledger_service self (list_query self) with
     | Ok ml_transactions => Ok (set_ml_transactions self ml_transactions)
     | Raise e => Raise e
     end,
     mk_world (stdin w) (stdout w) (requests w)
       (queries w ++ [list_query self])).
Proof.
  unfold request_transactions, get_transactions, list_query, bind, ret.
  destruct (date_range self) as [start_date end_date]. simpl.
  by destruct (ledger_service self _).
Qed.

(** X13.  Whatever is typed at the prompts, when the transfer returns it
    returns the rows of the statement that the ledger, as the service
    listed it for the run, does not hold and that no preset matches, in
    the order of the statement, each with both flags false -- also the
    rows that were just entered by hand. *)
Theorem transfer_returns_unrecognised self bank_transactions w df w' :
  transfer_bank_transactions re_match self bank_transactions w = (Ok df, w') →
  ∃ ml_transactions,
    lists self ml_transactions
    ∧ df = (λ r : nat * Series,
              (r.1, <["has_preset" := CBool false]>
                      (<["is_in_ml" := CBool false]> r.2)))
             <$> filter
                   (λ r, unrecognised re_match
                           (set_ml_transactions self ml_transactions) r.2
                         = true)
                   bank_transactions.
Proof.
  unfold transfer_bank_transactions. intros Hrun.
  apply bind_Ok in Hrun as (self1 & w0 & Hlisting & Hrun).
  rewrite request_transactions_run in Hlisting.
  destruct (ledger_service self (list_query self)) as [ml_transactions|e]
    eqn:Hlists; [|done].
  injection Hlisting as <- _. exists ml_transactions. split; [done|].
  apply bind_Ok in Hrun as (tr_df & w1 & Hclassify & Hrun).
  apply bind_Ok in Hrun as (adding & w2 & _ & Hrun).
  apply bind_Ok in Hrun as ([] & w3 & _ & Hrun).
  apply bind_Ok in Hrun as (manual & w4 & _ & Hrun).
  apply bind_Ok in Hrun as ([] & w5 & _ & Hrun).
  injection Hrun as <- _.
  unfold lift in Hclassify. injection Hclassify as Hclassify _.
  apply classify_rows in Hclassify as ->.
  unfold remaining.
  rewrite (filter_fmap_iff _ _
             (λ r, unrecognised re_match
                     (set_ml_transactions self ml_transactions) r.2 = true)).
  - apply list_fmap_ext. intros i [idx row] Hrow. simpl. f_equal.
    apply list_elem_of_lookup_2, list_elem_of_filter in Hrow as [Hun _].
    simpl in Hun. unfold unrecognised in Hun.
    apply andb_true_iff in Hun as [Hflag Hnone].
    apply negb_true_iff in Hflag.
    unfold classified_row, RunSpec.labelled_row. rewrite Hflag.
    by destruct (matched_preset _ _ _).
  - intros [idx row]. simpl.
    rewrite flag_classified_is_in_ml, flag_classified_has_preset.
    unfold unrecognised.
    destruct (dedup_flag _ row); simpl; [done|].
    by destruct (matched_preset _ _ _).
Qed.

Lemma yes_no_no_yes lines r rest :
  "y" ∉ lines → UserPrompts.yes_no lines = (r, rest) →
  r ≠ Ok true ∧ "y" ∉ rest.
Proof.
  revert r rest. induction lines as [|ans lines IH]; intros r rest Hy; simpl.
  - intros [= <- <-]. split; [done|]. apply not_elem_of_nil.
  - apply not_elem_of_cons in Hy as [Hans Hy].
    rewrite bool_decide_eq_false_2 by done.
    case_bool_decide.
    + by intros [= <- <-].
    + by apply IH.
Qed.

(** X14.  Unless a line [y] is typed, a run adds nothing to the ledger:
    it sends the [/transaction/list] request it starts with and no
    [/transaction/add] request, and [moneymover.py] prints nothing,
    whatever else is answered at the two prompts, and also when the input
    ends or the listing fails. *)
Theorem transfer_adds_nothing_without_yes self bank_transactions w res w' :
  "y" ∉ stdin w →
  transfer_bank_transactions re_match self bank_transactions w = (res, w') →
  requests w' = requests w
  ∧ queries w' = (queries w ++ [list_query self])%list
  ∧ stdout w' = stdout w.
Proof.
  intros Hy. unfold transfer_bank_transactions. unfold bind at 1.
  rewrite request_transactions_run.
  destruct (ledger_service self (list_query self)) as [ml_transactions|e];
    [|by intros [= _ <-]].
  generalize (set_ml_transactions self ml_transactions). intros self1.
  unfold bind, lift, prompt, ret. cbn [stdin stdout requests queries].
  destruct (classify re_match self1 bank_transactions) as [tr_df|e];
    [|by intros [= _ <-]].
  assert (∀ (df : DataFrame) lines r rest,
            "y" ∉ lines →
            (UserPrompts.prompt_adding df lines = (r, rest)
             ∨ UserPrompts.promt_manual_entry df lines = (r, rest)) →
            r ≠ Ok true ∧ "y" ∉ rest) as Hprompt.
  { intros df lines r rest Hlines.
    unfold UserPrompts.prompt_adding, UserPrompts.promt_manual_entry.
    destruct df.
    - by intros [[= <- <-]|[= <- <-]].
    - intros [?|?]; by eapply yes_no_no_yes. }
  destruct (UserPrompts.prompt_adding (transactions_to_add tr_df) (stdin w))
    as [adding rest1] eqn:Hadding.
  destruct (Hprompt _ _ _ _ Hy (or_introl Hadding)) as [Hno1 Hy1].
  destruct adding as [[]|e]; [done| |by intros [= _ <-]].
  simpl.
  destruct (UserPrompts.promt_manual_entry (remaining tr_df) rest1)
    as [manual rest2] eqn:Hmanual.
  destruct (Hprompt _ _ _ _ Hy1 (or_intror Hmanual)) as [Hno2 Hy2].
  destruct manual as [[]|e]; [done| |]; by intros [= _ <-].
Qed.

(** X15.  The dedup pass succeeds exactly when the ledger is empty or
    every row of the statement has an amount and a date: on an empty
    ledger it reads no column at all. *)
Theorem check_if_already_added_Ok_iff self bank_transactions :
  (∃ df, _check_if_already_added self bank_transactions = Ok df)
  ↔ (ml_transactions self ≠ [] → Forall has_dedup_columns bank_transactions).
Proof.
  split.
  - intros [df Hcheck]. by apply check_if_already_added_has_columns with df.
  - apply check_if_already_added_Ok.
Qed.

(** X16.  The report and the transfer agree: on a classified statement
    the report never fails, it shows [Recognized] on exactly the rows the
    transfer offers to add from their presets, and [Requires manual
    entry] on exactly the rows it offers for manual entry and returns. *)
Theorem report_agrees_with_transfer self bank_transactions tr_df r :
  classify re_match self bank_transactions = Ok tr_df →
  r ∈ tr_df →
  (∃ text, Report.report_status r.2 = Ok text)
  ∧ (Report.report_status r.2 = Ok "Recognized"
     ↔ r ∈ transactions_to_add tr_df)
  ∧ (Report.report_status r.2 = Ok "Requires manual entry"
     ↔ r ∈ remaining tr_df).
Proof.
  intros Hclassify Hr. pose proof Hr as Hr'.
  rewrite (classify_rows _ _ _ Hclassify) in Hr'.
  apply list_elem_of_fmap in Hr' as ([idx row] & -> & _). simpl.
  destruct (classified_row_flags self row)
    as (is_in_ml & has_preset & Hin & Hhas).
  unfold transactions_to_add, remaining.
  rewrite !list_elem_of_filter. simpl.
  unfold Report.report_status, getitem, flag. rewrite Hin, Hhas. simpl.
  destruct is_in_ml, has_preset; simpl; split; try by eexists.
  all: split; split; try done; by intros [? _].
Qed.

(** X17.  A preset without conditions matches every transaction: with
    one among the presets no row is left for manual entry. *)
Theorem preset_without_conditions_matches_all self bank_transactions tr_df
    preset :
  preset ∈ transaction_presets self → conditions preset = [] →
  classify re_match self bank_transactions = Ok tr_df →
  remaining tr_df = [].
Proof.
  intros Hpreset Hconditions Hclassify.
  apply classify_rows in Hclassify as ->.
  unfold remaining. apply filter_none.
  intros r Hr. apply list_elem_of_fmap in Hr as ([idx row] & -> & _). simpl.
  rewrite flag_classified_has_preset.
  assert (∀ bank_transaction,
            matched_preset re_match bank_transaction (transaction_presets self)
            ≠ None) as Hmatched.
  { intros bank_transaction.
    induction (transaction_presets self) as [|p ps IH]; simpl.
    - by apply elem_of_nil in Hpreset.
    - apply elem_of_cons in Hpreset as [<-|Hpreset].
      + unfold _is_preset_matched. by rewrite Hconditions.
      + destruct (_is_preset_matched re_match bank_transaction p); [done|].
        by apply IH. }
  destruct (matched_preset _ _ _) eqn:Hm; [|by apply Hmatched in Hm].
  by rewrite orb_true_r.
Qed.

End ClassificationExtras.

Section RunExamples.
Import MoneyLoverClient MoneyMover MoneyMoverSetup TransferSpec RunSpec.

Lemma load_presets_expenses_first_witness :
  Examples.presets
  = (default [] (MoreExamples.raw_presets !! "expenses")
     ++ default [] (MoreExamples.raw_presets !! "incomes"))%list
  ∧ matched_preset Examples.literal_match Examples.salary Examples.presets
    = match matched_preset Examples.literal_match Examples.salary
              (default [] (MoreExamples.raw_presets !! "expenses")) with
      | Some preset => Some preset
      | None => matched_preset Examples.literal_match Examples.salary
                  (default [] (MoreExamples.raw_presets !! "incomes"))
      end.
Proof.
  apply (load_presets_expenses_first Examples.literal_match
           MoreExamples.raw_presets Examples.presets Examples.salary).
  reflexivity.
Defined.

Lemma presets_on_statement_columns :
  conditions_on_statement_columns Examples.presets.
Proof.
  intros preset column pattern Hpreset Hcondition.
  repeat (apply elem_of_cons in Hpreset as [->|Hpreset];
          [simpl in Hcondition;
           repeat (apply elem_of_cons in Hcondition as [[= -> ->]|Hcondition];
                   [done|]);
           by apply elem_of_nil in Hcondition|]).
  by apply elem_of_nil in Hpreset.
Qed.

Lemma classify_idempotent_witness :
  classify Examples.literal_match Examples.mover Examples.classified
  = Ok Examples.classified.
Proof.
  apply (classify_idempotent Examples.literal_match Examples.mover
           Examples.statement Examples.classified).
  - exact presets_on_statement_columns.
  - reflexivity.
Defined.

Lemma transfer_returns_unrecognised_witness :
  ∃ ml_transactions,
    lists Examples.mover ml_transactions
    ∧ remaining Examples.classified
      = (λ r : nat * Series,
           (r.1, <["has_preset" := CBool false]>
                   (<["is_in_ml" := CBool false]> r.2)))
          <$> filter
                (λ r, unrecognised Examples.literal_match
                        (set_ml_transactions Examples.mover ml_transactions)
                        r.2
                      = true)
                Examples.statement.
Proof.
  apply (transfer_returns_unrecognised Examples.literal_match Examples.mover
           Examples.statement (Examples.console ["y"; "n"])
           (remaining Examples.classified)
           (mk_world []
              ["Row 1: Salary:  2500.0 - Added to Moneylover"]
              [MoreExamples.request_of_salary]
              [list_query Examples.mover])).
  reflexivity.
Defined.

Lemma transfer_adds_nothing_without_yes_witness :
  requests (mk_world [] [] [] [list_query Examples.mover])
  = requests (Examples.console ["yes"; "n"; "n"])
  ∧ queries (mk_world [] [] [] [list_query Examples.mover])
    = (queries (Examples.console ["yes"; "n"; "n"])
       ++ [list_query Examples.mover])%list
  ∧ stdout (mk_world [] [] [] [list_query Examples.mover])
    = stdout (Examples.console ["yes"; "n"; "n"]).
Proof.
  apply (transfer_adds_nothing_without_yes Examples.literal_match
           Examples.mover Examples.statement
           (Examples.console ["yes"; "n"; "n"])
           (Ok (remaining Examples.classified))
           (mk_world [] [] [] [list_query Examples.mover])).
  - simpl. rewrite !not_elem_of_cons. split_and!; try done.
    apply not_elem_of_nil.
  - reflexivity.
Defined.

Lemma report_agrees_with_transfer_witness :
  let r := (1%nat,
            classified_row Examples.literal_match Examples.mover
              Examples.salary) in
  (∃ text, Report.report_status r.2 = Ok text)
  ∧ (Report.report_status r.2 = Ok "Recognized"
     ↔ r ∈ transactions_to_add Examples.classified)
  ∧ (Report.report_status r.2 = Ok "Requires manual entry"
     ↔ r ∈ remaining Examples.classified).
Proof.
  apply (report_agrees_with_transfer Examples.literal_match Examples.mover
           Examples.statement Examples.classified).
  - reflexivity.
  - apply list_elem_of_lookup_2 with 1%nat. reflexivity.
Defined.

Lemma preset_without_conditions_matches_all_witness :
  remaining MoreExamples.classified_with_catch_all = [].
Proof.
  apply (preset_without_conditions_matches_all Examples.literal_match
           MoreExamples.mover_with_catch_all Examples.statement
           MoreExamples.classified_with_catch_all MoreExamples.catch_all).
  - apply elem_of_app. right. apply list_elem_of_singleton. reflexivity.
  - reflexivity.
  - reflexivity.
Defined.

End RunExamples.

(** ** The automatic pass *)

Section AutomaticPassExtras.
Import MoneyLoverClient MoneyLoverClientOps MoneyMover TransferSpec RunSpec.

Lemma get_category_id_first self category_name category_type first w :
  resolves_first self category_name category_type first →
  ∃ w1, _get_category_id self category_name category_type w
        = (Ok (Category._id first), w1)
        ∧ stdin w1 = stdin w ∧ requests w1 = requests w.
Proof.
  intros (before & after & Hfile & Hbefore & Hfirst).
  unfold _get_category_id. rewrite Hfile.
  rewrite filter_app, (filter_none _ before) by done. simpl.
  rewrite filter_cons_True by done.
  destruct (filter _ after) as [|second others]; by eexists.
Qed.

(** One turn of the loop on a row that resolves: the request goes out,
    and the reply of the service decides whether the loop goes on. *)
Lemma transfer_from_presets_step self r df req w :
  request_of_row self r req →
  ∃ w1, stdin w1 = stdin w
        ∧ requests w1 = (requests w ++ [req])%list
        ∧ _transfer_from_presets self (r :: df) w
          = match service self req with
            | Ok _ => _transfer_from_presets self df w1
            | Raise e => (Raise e, w1)
            end.
Proof.
  destruct r as [idx row].
  intros (category_name & category_type & row_note & row_amount & row_date
          & first & Hname & Htype & Hnote & Hamount & Hdate & Hfirst & ->).
  simpl in *.
  destruct (get_category_id_first self category_name category_type first w
              Hfirst) as (w0 & Hid & Hstdin & Hrequests).
  unfold _transfer_from_presets. simpl.
  unfold _create_payload_from_preset, try_except_KeyError, _create_payload,
    add_payload, add_transaction, _post_request, getitem, bind, lift, print.
  rewrite Hname, Htype, Hid, Hnote, Hamount, Hdate. simpl.
  destruct (service self _) as [[]|e]; simpl.
  - eexists (mk_world _ _ _ _). split; [|split]; [| |reflexivity]; simpl.
    + done.
    + by rewrite Hrequests.
  - eexists (mk_world _ _ _ _). split; [|split]; [| |reflexivity]; simpl.
    + done.
    + by rewrite Hrequests.
Qed.

(** X18.  When every row of the batch carries a label that resolves and
    a date, and the service accepts each request, the automatic pass
    sends exactly one request per row, in the order of the rows, with
    the category id of the first category that answers the label; it
    reads nothing from the console and returns normally. *)
Theorem transfer_from_presets_sends_all self transactions_df reqs w :
  Forall2 (request_of_row self) transactions_df reqs →
  (∀ req, req ∈ reqs → service self req = Ok tt) →
  ∃ w', _transfer_from_presets self transactions_df w = (Ok tt, w')
        ∧ requests w' = (requests w ++ reqs)%list
        ∧ stdin w' = stdin w.
Proof.
  intros Hrows. revert w.
  induction Hrows as [|r req df reqs Hrow Hrows IH]; intros w Haccepts.
  - exists w. by rewrite app_nil_r.
  - destruct (transfer_from_presets_step self r df req w Hrow)
      as (w1 & Hstdin & Hrequests & ->).
    rewrite Haccepts by left.
    destruct (IH w1) as (w' & Hrun & Hrequests' & Hstdin').
    { intros req' Hreq'. apply Haccepts. by right. }
    exists w'. split; [done|]. split; [|congruence].
    by rewrite Hrequests', Hrequests, <- app_assoc.
Qed.

(** X19.  When the service rejects a request, the automatic pass stops
    with the error of the service: the rejected request was sent, the
    requests of the rows before it stay sent, and no later row of the
    batch is tried. *)
Theorem transfer_from_presets_rejected self transactions_df accepted
    rejected rest e w :
  Forall2 (request_of_row self) transactions_df
    (accepted ++ rejected :: rest)%list →
  (∀ req, req ∈ accepted → service self req = Ok tt) →
  service self rejected = Raise e →
  ∃ w', _transfer_from_presets self transactions_df w = (Raise e, w')
        ∧ requests w' = (requests w ++ accepted ++ [rejected])%list.
Proof.
  revert transactions_df w.
  induction accepted as [|req accepted IH];
    intros transactions_df w Hrows Haccepts Hrejects.
  - apply Forall2_cons_inv_r in Hrows as (r & df & Hrow & _ & ->).
    destruct (transfer_from_presets_step self r df rejected w Hrow)
      as (w1 & _ & Hrequests & ->).
    rewrite Hrejects. by exists w1.
  - apply Forall2_cons_inv_r in Hrows as (r & df & Hrow & Hrows & ->).
    destruct (transfer_from_presets_step self r df req w Hrow)
      as (w1 & _ & Hrequests & ->).
    rewrite Haccepts by left.
    destruct (IH df w1 Hrows) as (w' & Hrun & Hrequests'); [|done|].
    { intros req' Hreq'. apply Haccepts. by right. }
    exists w'. split; [done|].
    by rewrite Hrequests', Hrequests, <- !app_assoc.
Qed.

Lemma resolves_first_lookup (k : nat) first name type :
  Examples.categories !! k = Some first →
  CStr (Category.name first) = name →
  CStr (Category.type first) = type →
  Forall (λ c, CStr (Category.name c) ≠ name) (take k Examples.categories) →
  resolves_first Examples.mover name type first.
Proof.
  intros Hk Hname Htype Hbefore.
  exists (take k Examples.categories), (drop (S k) Examples.categories).
  split; [|split].
  - symmetry. by apply take_drop_middle.
  - intros c Hc (_ & Hc' & _).
    by apply (proj1 (Forall_forall _ _) Hbefore c Hc).
  - split; [|done]. apply list_elem_of_lookup_2 in Hk. revert Hk.
    clear. intros Hk.
    repeat (apply elem_of_cons in Hk as [->|Hk]; [done|]).
    by apply elem_of_nil in Hk.
Qed.

Lemma batch_requests :
  Forall2 (request_of_row Examples.mover) MoreExamples.batch
    [ MoreExamples.request_of_groceries; MoreExamples.request_of_salary;
      MoreExamples.request_of_bookshop ].
Proof.
  unfold MoreExamples.batch.
  constructor; [|constructor; [|constructor; [|constructor]]].
  - exists (CStr "Food"), (CStr "expense"), (CStr "Groceries"),
      (CFloat (-1250)), (Datetime.mk_datetime 2024 3 5),
      (Examples.category "expense" "Food" (CStr "c1") CNaN).
    split_and!; try (vm_compute; reflexivity).
    apply (resolves_first_lookup 0%nat); [done..|]. constructor.
  - exists (CStr "Salary"), (CStr "income"), (CStr "Salary"),
      (CFloat 250000), (Datetime.mk_datetime 2024 3 25),
      (Examples.category "income" "Salary" (CStr "c8") CNaN).
    split_and!; try (vm_compute; reflexivity).
    apply (resolves_first_lookup 7%nat); [done..|]. simpl.
    by repeat constructor.
  - exists (CStr "Bills"), (CStr "expense"), (CStr "Books"),
      (CFloat (-1999)), (Datetime.mk_datetime 2024 3 7),
      (Examples.category "expense" "Bills" (CStr "c2") CNaN).
    split_and!; try (vm_compute; reflexivity).
    apply (resolves_first_lookup 1%nat); [done..|]. simpl.
    by repeat constructor.
Qed.

Lemma transfer_from_presets_sends_all_witness :
  ∃ w',
    _transfer_from_presets Examples.mover MoreExamples.batch
      (Examples.console [])
    = (Ok tt, w')
    ∧ requests w'
      = (requests (Examples.console [])
         ++ [ MoreExamples.request_of_groceries;
              MoreExamples.request_of_salary;
              MoreExamples.request_of_bookshop ])%list
    ∧ stdin w' = stdin (Examples.console []).
Proof.
  apply (transfer_from_presets_sends_all Examples.mover MoreExamples.batch
           [ MoreExamples.request_of_groceries; MoreExamples.request_of_salary;
             MoreExamples.request_of_bookshop ] (Examples.console [])).
  - exact batch_requests.
  - reflexivity.
Defined.

Lemma transfer_from_presets_rejected_witness :
  ∃ w',
    _transfer_from_presets MoreExamples.mover_rejecting_incomes
      MoreExamples.batch (Examples.console [])
    = (Raise (MoneyLoverException "Error 1, not allowed"), w')
    ∧ requests w'
      = (requests (Examples.console [])
         ++ [MoreExamples.request_of_groceries]
         ++ [MoreExamples.request_of_salary])%list.
Proof.
  apply (transfer_from_presets_rejected MoreExamples.mover_rejecting_incomes
           MoreExamples.batch [MoreExamples.request_of_groceries]
           MoreExamples.request_of_salary [MoreExamples.request_of_bookshop]
           (MoneyLoverException "Error 1, not allowed") (Examples.console [])).
  - exact batch_requests.
  - intros req Hreq. by apply list_elem_of_singleton in Hreq as ->.
  - reflexivity.
Defined.

End AutomaticPassExtras.

(** ** The cached access token *)

Section TokenExtras.
Import TokenCache TokenSpec.

Lemma lstrip_id s :
  (∀ c s', s = String c s' → is_space c = false) → lstrip s = s.
Proof.
  destruct s as [|c s']; [done|]. intros Hfirst. simpl.
  by rewrite (Hfirst c s').
Qed.

Lemma rstrip_id s :
  (∀ c s', s = s' +:+ String c "" → is_space c = false) → rstrip s = s.
Proof.
  induction s as [|c s' IH]; [done|]. intros Hlast. simpl.
  destruct s' as [|c' s''].
  - simpl. by rewrite (Hlast c "").
  - rewrite IH; [done|]. intros c0 s0 Hs0.
    apply (Hlast c0 (String c s0)). by rewrite Hs0.
Qed.

(** X20.  A token that was saved is the token that is loaded again for
    five days, and is no longer loaded from then on (so that the client
    logs in again); the token comes back as it was saved when it has no
    white space at either end. *)
Theorem saved_token_is_loaded_for_five_days token elapsed :
  no_surrounding_space token →
  _load_access_token (later elapsed (_save_access_token token))
  = Ok (if elapsed <? 5 * microseconds_per_day then Some token else None).
Proof.
  intros [Hfirst Hlast].
  unfold _load_access_token, _save_access_token, later, _is_token_valid.
  cbn [content age]. rewrite Z.add_0_l.
  destruct (elapsed <? 5 * microseconds_per_day); [|done].
  unfold strip. by rewrite (lstrip_id token Hfirst), (rstrip_id token Hlast).
Qed.

Lemma saved_token_is_loaded_for_five_days_witness :
  _load_access_token
    (later (4 * microseconds_per_day) (_save_access_token "eyJhbGciOi"))
  = Ok (Some "eyJhbGciOi").
Proof.
  apply (saved_token_is_loaded_for_five_days "eyJhbGciOi"
           (4 * microseconds_per_day)).
  split; intros c s' Hs.
  - by injection Hs as <- _.
  - revert Hs.
    do 10 (destruct s' as [|? s']; [intros Hs; cbv in Hs; by simplify_eq|]).
    intros Hs. destruct s'; cbv in Hs; by simplify_eq.
Defined.

End TokenExtras.
